(** * get-wallet-holdings: the enrichment pipeline

    A shallow embedding of [src/get-wallet-holdings/__init__.py]: the
    valuation resolver ([get_asset_id_async], [get_alt_data_async]) and the
    orchestrator ([main]), with the statements of the specification proved
    or refuted against it.

    Conventions of the embedding.
    - JSON-decoded Python objects are values of [pyval]; a Python [dict]
      with string keys is an association list whose first binding of a key
      is the effective one.
    - A Python [float] is an IEEE 754 binary64 value, Rocq's primitive
      [float], with its rounding, its infinities and NaN.
    - An expression that may raise lives in the monad [exc]; [Raise] stands
      for any exception derived from [Exception].
    - Library routines whose exact behaviour depends on the interpreter
      ([float] of a string, [sum] of floats, [repr] of floats and
      containers, [datetime.fromisoformat]) are parameters of the
      development.
    - The answers of the valuation service are untyped JSON, since a
      malformed answer is one of the failure modes. The tokens of the
      inventory page and the rows of the store are records: the development
      is about pages whose tokens are well formed (objects whose
      [mintAddress] is a string or missing and whose [attributes] is a
      list of objects or missing); what [main] does with a page of another
      shape is outside it. The query parameters [offset] and [limit] are
      integers already.
    - What the outside world does (inventory, store, valuation service,
      clock, order of completion of the sub-tasks) is the [world] that
      [main] takes beside the request. *)

From Stdlib Require Import ZArith QArith Qround String Ascii List Lia Permutation.
From Stdlib Require Import Floats.PrimFloat Floats.SpecFloat Floats.FloatOps.
From stdpp Require Import base option list gmap strings pretty.

Local Open Scope string_scope.
Local Open Scope Z_scope.

(** ** Exceptions *)

Inductive exc (A : Type) : Type :=
| Ok (a : A)
| Raise.
Arguments Ok {A} a.
Arguments Raise {A}.

Global Instance exc_ret : MRet exc := λ A a, Ok a.
Global Instance exc_bind : MBind exc := λ A B f m,
  match m with Ok a => f a | Raise => Raise end.

(** [try: body except Exception: handler] where the handler returns a value. *)
Definition try_except {A} (body : exc A) (handler : A) : exc A :=
  match body with Ok a => Ok a | Raise => Ok handler end.

Definition of_option {A} (o : option A) : exc A :=
  match o with Some a => Ok a | None => Raise end.

(** ** Python values *)

#[warnings="-register-all"]
Inductive pyval : Type :=
| PNone
| PBool (b : bool)
| PInt (z : Z)
| PFloat (x : float)
| PStr (s : string)
| PList (l : list pyval)
| PDict (d : list (string * pyval)).

Fixpoint assoc_get {V} (k : string) (d : list (string * V)) : option V :=
  match d with
  | [] => None
  | (k', v) :: d' => if String.eqb k' k then Some v else assoc_get k d'
  end.

(** [bool(v)] *)
Definition truthy (v : pyval) : bool :=
  match v with
  | PNone => false
  | PBool b => b
  | PInt z => negb (z =? 0)
  | PFloat x => negb (x =? 0)%float
  | PStr s => negb (String.eqb s "")
  | PList l => match l with [] => false | _ => true end
  | PDict d => match d with [] => false | _ => true end
  end.

(** [a or b] *)
Definition py_or (a b : pyval) : pyval := if truthy a then a else b.

(** [o.get(k, dflt)]: only a dict has the method. *)
Definition py_get (o : pyval) (k : string) (dflt : pyval) : exc pyval :=
  match o with
  | PDict d => Ok (default dflt (assoc_get k d))
  | _ => Raise
  end.

(** [o[k]] for a string key [k]: [KeyError] on a dict without the key,
    [TypeError] on everything else. *)
Definition py_getitem (o : pyval) (k : string) : exc pyval :=
  match o with
  | PDict d => of_option (assoc_get k d)
  | _ => Raise
  end.

(** The value of a Python number. Numbers compare by value across [bool],
    [int] and [float], and Python compares an [int] with a [float]
    exactly. *)
Inductive number : Type :=
| Finite (q : Q)
| Infinite (negative : bool)
| NotANumber.

(** [m * 2 ^ e] *)
Definition dyadic (m e : Z) : Q :=
  if 0 <=? e then inject_Z (m * 2 ^ e) else m # Z.to_pos (2 ^ (- e)).

Definition float_number (x : float) : number :=
  match Prim2SF x with
  | S754_zero _ => Finite 0
  | S754_finite s m e => Finite (dyadic (if s then Z.neg m else Z.pos m) e)
  | S754_infinity s => Infinite s
  | S754_nan => NotANumber
  end.

Definition num_of (v : pyval) : option number :=
  match v with
  | PBool b => Some (Finite (if b then 1 else 0))
  | PInt z => Some (Finite (inject_Z z))
  | PFloat x => Some (float_number x)
  | _ => None
  end.

(** [a == b] on numbers: NaN equals nothing. *)
Definition number_eqb (a b : number) : bool :=
  match a, b with
  | Finite p, Finite q => Qeq_bool p q
  | Infinite s, Infinite t => Bool.eqb s t
  | _, _ => false
  end.

(** [a > n] for an integer [n] *)
Definition number_gtb (a : number) (n : Z) : bool :=
  match a with
  | Finite q => negb (Qle_bool q (inject_Z n))
  | Infinite negative => negb negative
  | NotANumber => false
  end.

(** [a == b] on JSON-like values: numbers compare by value across [bool],
    [int] and [float]; dicts compare as maps. *)
Fixpoint py_eq (a b : pyval) {struct a} : bool :=
  match a, b with
  | PNone, PNone => true
  | PStr s, PStr t => String.eqb s t
  | PList l, PList m =>
      (fix go (l m : list pyval) {struct l} : bool :=
         match l, m with
         | [], [] => true
         | x :: l', y :: m' => py_eq x y && go l' m'
         | _, _ => false
         end) l m
  | PDict d, PDict e =>
      (length d =? length e)%nat &&
      (fix go (d : list (string * pyval)) : bool :=
         match d with
         | [] => true
         | (k, v) :: d' =>
             match assoc_get k e with
             | Some w => py_eq v w
             | None => false
             end && go d'
         end) d
  | PBool _, _ | PInt _, _ | PFloat _, _ =>
      match num_of a, num_of b with
      | Some p, Some q => number_eqb p q
      | _, _ => false
      end
  | _, _ => false
  end.

(** ** Strings and numbers of the Python runtime *)

(** [s.split('T')[0]]: the part of [s] before its first ['T']. *)
Fixpoint split_T_0 (s : string) : string :=
  match s with
  | EmptyString => EmptyString
  | String c r => if Ascii.eqb c "T" then EmptyString else String c (split_T_0 r)
  end.

(** Iterating a string yields its one-character strings. *)
Fixpoint chars (s : string) : list pyval :=
  match s with
  | EmptyString => []
  | String c r => PStr (String c EmptyString) :: chars r
  end.

(** [sub in s] for strings. *)
Fixpoint str_contains (sub s : string) : bool :=
  String.prefix sub s ||
  match s with
  | EmptyString => false
  | String _ r => str_contains sub r
  end.

(** [k in o] for a string [k]. *)
Definition py_in (k : string) (o : pyval) : exc bool :=
  match o with
  | PDict d => Ok (match assoc_get k d with Some _ => true | None => false end)
  | PList l => Ok (existsb (py_eq (PStr k)) l)
  | PStr s => Ok (str_contains k s)
  | _ => Raise
  end.

(** [for x in o]: the elements visited. *)
Definition py_iter (o : pyval) : exc (list pyval) :=
  match o with
  | PList l => Ok l
  | PDict d => Ok (map (λ kv, PStr (fst kv)) d)
  | PStr s => Ok (chars s)
  | _ => Raise
  end.

(** [for x in o[:n]]: the elements of the slice. *)
Definition py_slice_to (n : nat) (o : pyval) : exc (list pyval) :=
  match o with
  | PList l => Ok (take n l)
  | PStr s => Ok (take n (chars s))
  | _ => Raise
  end.

(** [v > n] for an integer literal [n]: [TypeError] unless [v] is a number. *)
Definition py_gt (v : pyval) (n : Z) : exc bool :=
  match num_of v with
  | Some a => Ok (number_gtb a n)
  | None => Raise
  end.

(** Rounding to the nearest integer, ties to even. *)
Definition round_half_even (q : Q) : Z :=
  let f := Qfloor q in
  match Qcompare (q - inject_Z f) (1 # 2) with
  | Lt => f
  | Gt => f + 1
  | Eq => if Z.even f then f else f + 1
  end.

(** The digits of [f"{x:.1f}"] for a value [q >= 0]: [q] rounded to one
    decimal, ties to even. *)
Definition format_1f_abs (q : Q) : string :=
  let n := round_half_even (q * 10) in
  pretty (n / 10) ++ "." ++ pretty (n mod 10).

(** [f"{x:.1f}"]: the exact value of the float, rounded to one decimal. *)
Definition format_1f (x : float) : string :=
  match Prim2SF x with
  | S754_nan => "nan"
  | S754_infinity s => if s then "-inf" else "inf"
  | S754_zero s => if s then "-0.0" else "0.0"
  | S754_finite s m e =>
      (if s then "-" else "") ++ format_1f_abs (dyadic (Z.pos m) e)
  end.

(** [float(z)] for an integer: the nearest float, ties to even; [None] is
    the [OverflowError] of an integer too large for a float. *)
Definition float_of_int (z : Z) : option float :=
  match binary_normalize 53 1024 z 0 false with
  | S754_infinity _ => None
  | sf => Some (SF2Prim sf)
  end.

(** [len(l)] as the float that a division converts it to. A list has fewer
    than [2 ^ 63] elements, so this conversion never overflows. *)
Definition float_of_len (n : nat) : float :=
  SF2Prim (binary_normalize 53 1024 (Z.of_nat n) 0 false).

(** [a / b] for integers: the float nearest to the quotient, ties to even.
    The quotient is cut after at least 66 binary digits and a last digit
    records whether something was cut off, so rounding the cut quotient is
    rounding the quotient. [ZeroDivisionError] for [b = 0], [OverflowError]
    for a quotient too large for a float. *)
Definition int_truediv (a b : Z) : exc float :=
  if b =? 0 then Raise else
  let negative := xorb (a <? 0) (b <? 0) in
  let n := Z.abs a in
  let d := Z.abs b in
  if n =? 0 then Ok (if negative then (-0)%float else 0%float) else
  let shift := Z.max 0 (Z.log2 d + 66 - Z.log2 n) in
  let q := (n * 2 ^ shift) / d in
  let sticky := if (n * 2 ^ shift) mod d =? 0 then 0 else 1 in
  let m := 2 * q + sticky in
  match binary_normalize 53 1024 (if negative then - m else m) (- shift - 1) false with
  | S754_infinity _ => Raise
  | sf => Ok (SF2Prim sf)
  end.

(** [math.ceil(x)]: [OverflowError] on an infinity, [ValueError] on NaN. *)
Definition py_ceil (x : float) : exc Z :=
  match float_number x with
  | Finite q => Ok (Qceiling q)
  | _ => Raise
  end.

Definition us_per_day : Z := 86400 * 1000000.

(** A [datetime] is its number of microseconds since the start of the
    calendar; [strftime('%Y-%m-%d')] names its calendar day. *)
Definition strftime_day (t : Z) : Z := t / us_per_day.

(** [daily_prices[k].append(x)] on a [defaultdict(list)], which keeps its
    keys in insertion order. *)
Fixpoint dd_append (k : Z) (x : float) (d : list (Z * list float))
    : list (Z * list float) :=
  match d with
  | [] => [(k, [x])]
  | (k', xs) :: d' =>
      if k' =? k then (k', (xs ++ [x])%list) :: d' else (k', xs) :: dd_append k x d'
  end.

(** A monadic left fold: a [for] loop whose body may raise. *)
Fixpoint foldM {A B} (f : A → B → exc A) (a : A) (l : list B) : exc A :=
  match l with
  | [] => Ok a
  | x :: l' => a' ← f a x; foldM f a' l'
  end.

(** [not v] for an environment value ([os.getenv] gives a string or [None]). *)
Definition env_unset (v : option string) : bool :=
  match v with Some s => String.eqb s "" | None => true end.

(** ** The data of a request *)

(** An HTTP response: its status and what [response.json()] gives. *)
Record response := { status_code : Z; json : exc pyval }.

(** [client.post(url=..., json=payload)]: the answer of the valuation
    service, or a transport error. *)
Definition client : Type := string → pyval → exc response.

(** The dictionary returned by [get_alt_data_async]. *)
Record alt_data := {
  res_alt_asset_id : pyval;
  res_alt_value : pyval;
  res_avg_price : pyval;
  res_supply : pyval;
  res_lower_bound : pyval;
  res_upper_bound : pyval;
  res_confidence : pyval
}.

(** An entry of a token's [attributes] list. *)
Record attribute := { trait_type : pyval; value : pyval }.

(** A well formed token of the inventory page: an object whose
    [mintAddress], when there is one, is a string, and whose [attributes],
    when there are some, are a list of objects. An absent key reads as
    [None]. *)
Record token := {
  mintAddress : option string;
  name : pyval;
  image : pyval;
  attributes : list attribute
}.

(** A row of the [listings] table, in the order of the [SELECT]. *)
Record db_row := {
  row_token_mint : string;
  row_alt_value : pyval;
  row_avg_price : pyval;
  row_supply : pyval;
  row_alt_asset_id : pyval;
  row_alt_value_lower_bound : pyval;
  row_alt_value_upper_bound : pyval;
  row_name : pyval;
  row_grade : pyval;
  row_grade_num : pyval;
  row_grading_id : pyval;
  row_img_url : pyval
}.

(** A value of [cartel_data_map]. The code reads it with [.get] only, so a
    missing key and a key bound to [None] are the same: [PNone]. *)
Record cartel := {
  c_alt_value : pyval;
  c_cartel_avg : pyval;
  c_supply : pyval;
  c_alt_asset_id : pyval;
  c_alt_range : pyval;
  c_db_name : pyval;
  c_db_grade : pyval;
  c_db_grade_num : pyval;
  c_db_grading_id : pyval;
  c_db_img_url : pyval
}.

(** The empty dict of [cartel_data_map.get(mint, {})]. *)
Definition cartel_empty : cartel :=
  {| c_alt_value := PNone; c_cartel_avg := PNone; c_supply := PNone;
     c_alt_asset_id := PNone; c_alt_range := PNone; c_db_name := PNone;
     c_db_grade := PNone; c_db_grade_num := PNone; c_db_grading_id := PNone;
     c_db_img_url := PNone |}.

(** An element of [formatted_tokens]. *)
Record formatted := {
  out_mint : option string;
  out_name : pyval;
  out_grade : pyval;
  out_grading_number : pyval;
  out_supply : pyval;
  out_img : pyval;
  out_alt_value : pyval;
  out_alt_range : pyval;
  out_cartel_avg : pyval;
  out_alt_link : pyval
}.

(** The body of a successful answer, before [json.dumps]. *)
Record result := {
  r_wallet : string;
  r_tokens : list formatted;
  r_count : Z;
  r_offset : Z;
  r_limit : Z
}.

Inductive body : Type :=
| Text (s : string)
| Json (r : result).

Record HttpResponse := { status : Z; content : body }.

(** The query parameters, [offset] and [limit] already through [int]. *)
Record request := { wallet : option string; offset : Z; limit : Z }.

(** What a request meets outside the function. Sub-task [i] of the batch
    has its own view of the valuation service and of the clock, and
    finishes at time [completion i]. *)
Record world := {
  POSTGRES_HOST : option string;
  POSTGRES_PORT : option string;
  POSTGRES_DB : option string;
  POSTGRES_USER : option string;
  POSTGRES_PASSWORD : option string;
  (** the Magic Eden call with [raise_for_status] and [json] *)
  inventory : string → Z → Z → exc (list token);
  (** [connect], [execute] and [fetchall] for a list of mints *)
  listings : list string → exc (list db_row);
  post : nat → client;
  clock : nat → Z;
  completion : nat → nat
}.

(** A coroutine of the batch: a resolver call, or [asyncio.sleep(0)]. *)
Inductive task : Type :=
| Resolve (cert_id grade company : pyval)
| Sleep.

(** ** The data of the listing functions

    [get-all-deals] and [get-listings] read the table [listings] and answer
    with its rows. Their [try] has two handlers, one for [psycopg2.Error]
    and one for every other exception, so a failure carries its kind. *)

Inductive failure : Type :=
| PsycopgError
| OtherError.

Inductive attempt (A : Type) : Type :=
| Done (a : A)
| Failed (e : failure).
Arguments Done {A} a.
Arguments Failed {A} e.

Global Instance attempt_ret : MRet attempt := λ A a, Done a.
Global Instance attempt_bind : MBind attempt := λ A B f m,
  match m with Done a => f a | Failed e => Failed e end.

(** An exception of the arithmetic is no [psycopg2.Error]. *)
Definition other_error {A} (e : exc A) : attempt A :=
  match e with Ok a => Done a | Raise => Failed OtherError end.

(** The rows of a query with [cursor.description], reduced to the column
    names ([desc[0]]); [None] when the cursor has no description. *)
Definition fetched_rows : Type := list (list pyval) * option (list string).

(** The environment and the store of the listing functions. *)
Record listings_world := {
  host : option string;
  port : option string;
  dbname : option string;
  user : option string;
  password : option string;
  (** [psycopg2.connect] and [conn.cursor()] *)
  connect : attempt unit;
  (** [SELECT COUNT] over the table, then [fetchone()[0]] *)
  count_all : attempt Z;
  (** the rows for [LIMIT limit OFFSET offset], newest first *)
  select_page : Z → Z → attempt fetched_rows;
  (** the rows with [is_listed = 1] *)
  select_listed : attempt fetched_rows;
  (** [cursor.close()] and [conn.close()] *)
  close : attempt unit
}.

(** The query parameters of [get-all-deals], as texts. *)
Record deals_request := { page_param : option string; limit_param : option string }.

(** The [pagination] object of the answer of [get-all-deals]. *)
Record pagination := {
  pg_page : Z;
  pg_limit : Z;
  pg_total : Z;
  pg_total_pages : Z
}.

(** [response_data] of [get-all-deals], before [json.dumps]. *)
Record deals_data := {
  dd_data : list (gmap string pyval);
  dd_pagination : pagination
}.

(** An answer of a listing function: a status, and a text or the data. *)
Record reply (A : Type) := { code : Z; payload : string + A }.
Arguments code {A} r.
Arguments payload {A} r.

(** ** A concrete runtime and concrete data, for the closed scenarios *)

Definition digit (c : ascii) : option Z :=
  let n := Z.of_N (N_of_ascii c) in
  if (48 <=? n) && (n <=? 57) then Some (n - 48) else None.

(** The mantissa and the number of decimals of an unsigned decimal literal. *)
Fixpoint decimal (s : string) (acc : Z) (seen_dot : bool) (decs : Z)
    : option (Z * Z) :=
  match s with
  | EmptyString => Some (acc, decs)
  | String c r =>
      if Ascii.eqb c "." then
        if seen_dot then None else decimal r acc true decs
      else
        match digit c with
        | Some d =>
            decimal r (10 * acc + d) seen_dot (if seen_dot then decs + 1 else decs)
        | None => None
        end
  end.

(** [float] on short decimal literals such as "9", "9.5" or "-0.25": the
    mantissa and the power of ten are floats without rounding (fewer than
    16 digits), so their quotient is the float nearest to the literal. *)
Definition demo_float_of_string (s : string) : option float :=
  let unsigned (r : string) : option float :=
    match r with
    | EmptyString | String "." EmptyString => None
    | _ =>
        match decimal r 0 false 0 with
        | Some (m, k) =>
            if (m <? 10 ^ 15) && (k <? 16) then
              x ← float_of_int m; y ← float_of_int (10 ^ k); Some (x / y)%float
            else None
        | None => None
        end
    end in
  match s with
  | String "-" r => PrimFloat.opp <$> unsigned r
  | _ => unsigned s
  end.

(** [sum] of a list of floats by additions from left to right, starting
    from the integer [0]. *)
Definition demo_float_sum (l : list float) : float :=
  foldl PrimFloat.add 0%float l.

(** [repr] of a float that has at most one decimal digit; the scenarios
    print no other float and no container. *)
Definition demo_repr (v : pyval) : string :=
  match v with
  | PFloat x => format_1f x
  | _ => "..."
  end.

Definition is_leap (y : Z) : bool :=
  ((y mod 4 =? 0) && negb (y mod 100 =? 0)) || (y mod 400 =? 0).

Definition days_in_month (y m : Z) : Z :=
  if m =? 2 then (if is_leap y then 29 else 28)
  else if (m =? 4) || (m =? 6) || (m =? 9) || (m =? 11) then 30 else 31.

Definition days_before_month (y m : Z) : Z :=
  foldr (λ k acc, days_in_month y k + acc) 0
    (filter (λ k, k < m) [1; 2; 3; 4; 5; 6; 7; 8; 9; 10; 11]).

(** [date(y, m, d).toordinal()] *)
Definition toordinal (y m d : Z) : Z :=
  let p := y - 1 in
  365 * p + p / 4 - p / 100 + p / 400 + days_before_month y m + d.

(** [datetime.fromisoformat] on the texts "YYYY-MM-DD": midnight of that
    day, in microseconds since the first day of the calendar. *)
Definition demo_fromisoformat (s : string) : option Z :=
  match s with
  | String y1 (String y2 (String y3 (String y4 (String "-"
      (String m1 (String m2 (String "-" (String d1 (String d2 EmptyString))))))))) =>
      match decimal (String y1 (String y2 (String y3 (String y4 EmptyString)))) 0 true 0,
            decimal (String m1 (String m2 EmptyString)) 0 true 0,
            decimal (String d1 (String d2 EmptyString)) 0 true 0 with
      | Some (y, _), Some (m, _), Some (d, _) =>
          if (1 <=? y) && (1 <=? m) && (m <=? 12) && (1 <=? d)
             && (d <=? days_in_month y m)
          then Some ((toordinal y m d - 1) * us_per_day) else None
      | _, _, _ => None
      end
  | _ => None
  end.

(** A datetime of the scenarios: a day of the calendar and a time of day. *)
Definition at_time (y m d hour minute : Z) : Z :=
  (toordinal y m d - 1) * us_per_day + (hour * 60 + minute) * 60 * 1000000.

(** A market transaction as the valuation service sends it. *)
Definition tx (date : string) (price : float) : pyval :=
  PDict [("date", PStr date); ("price", PFloat price)].

(** The answers of the valuation service in the scenarios: asset "asset-1"
    for every certificate, with a valuation of 110, two supply entries and
    the given sales. *)
Definition demo_service (sales : list pyval) : client := λ _ payload,
  match payload with
  | PDict (("operationName", PStr op) :: _) =>
      if String.eqb op "Cert" then
        Ok {| status_code := 200;
              json := Ok (PDict [("data", PDict [("cert", PDict [("asset",
                PDict [("id", PStr "asset-1"); ("name", PStr "Charizard")])])])]) |}
      else if String.eqb op "AssetDetails" then
        Ok {| status_code := 200;
              json := Ok (PDict [("data", PDict [("asset", PDict [
                ("altValueInfo", PDict [
                   ("currentAltValue", PFloat 110);
                   ("confidenceData", PDict [
                      ("currentConfidenceMetric", PNone);
                      ("currentErrorLowerBound", PFloat 90);
                      ("currentErrorUpperBound", PFloat 130)])]);
                ("cardPops", PList [
                   PDict [("gradingCompany", PStr "PSA"); ("gradeNumber", PStr "8.0");
                          ("count", PInt 100)];
                   PDict [("gradingCompany", PStr "PSA"); ("gradeNumber", PStr "9.0");
                          ("count", PInt 250)]])])])]) |}
      else
        Ok {| status_code := 200;
              json := Ok (PDict [("data", PDict [("asset", PDict [
                ("marketTransactions", PList sales)])])]) |}
  | _ => Raise
  end.

Definition demo_post : client :=
  demo_service [tx "2024-03-10T10:00:00Z" 100; tx "2024-03-02T18:30:00Z" 120].

(** A valuation service that is down. *)
Definition failing_post : client := λ _ _,
  Ok {| status_code := 503; json := Raise |}.

Definition attr (trait v : string) : attribute :=
  {| trait_type := PStr trait; value := PStr v |}.

(** A token that the cache knows. *)
Definition token_a : token :=
  {| mintAddress := Some "mintA"; name := PStr "Charizard #4";
     image := PStr "https://img.example/a.png";
     attributes := [attr "Grading Company" "PSA"; attr "The Grade" "9";
                    attr "GradeNum" "9"; attr "Grading ID" "11111111"] |}.

(** A token without cache entry and without grading attributes. *)
Definition token_b : token :=
  {| mintAddress := Some "mintB"; name := PStr "Pikachu #25";
     image := PStr "https://img.example/b.png";
     attributes := [attr "Category" "Pokemon"] |}.

(** A token without cache entry, with its grading attributes. *)
Definition token_c : token :=
  {| mintAddress := Some "mintC"; name := PStr "Mewtwo #150";
     image := PStr "https://img.example/c.png";
     attributes := [attr "Grading Company" "PSA"; attr "The Grade" "9";
                    attr "GradeNum" "9"; attr "Grading ID" "22222222"] |}.

(** The row of [token_a]: valuation 100, supply 50. *)
Definition row_a (alt_value : pyval) : db_row :=
  {| row_token_mint := "mintA"; row_alt_value := alt_value;
     row_avg_price := PFloat 95; row_supply := PInt 50;
     row_alt_asset_id := PStr "asset-9";
     row_alt_value_lower_bound := PFloat 90;
     row_alt_value_upper_bound := PFloat 110;
     row_name := PStr "Charizard (cache)"; row_grade := PStr "GEM MT 10";
     row_grade_num := PInt 10; row_grading_id := PStr "11111111";
     row_img_url := PNone |}.

(** A world: the page, the rows of the store (or its failure) and the
    valuation service. The store is configured when [host] is given. *)
Definition demo_world (host : option string) (page : list token)
    (rows : exc (list db_row)) (service : client) : world :=
  {| POSTGRES_HOST := host;
     POSTGRES_PORT := Some "5432";
     POSTGRES_DB := Some "cartel";
     POSTGRES_USER := Some "reader";
     POSTGRES_PASSWORD := Some "secret";
     inventory := λ _ _ _, Ok page;
     listings := λ _, rows;
     post := λ _, service;
     clock := λ _, at_time 2024 3 15 12 0;
     completion := λ i, (7 - i)%nat |}.

Definition demo_request : request :=
  {| wallet := Some "9xQeWvG816bUx9EPjHmaT23yvVM2ZWbrrpZb9PusVFin";
     offset := 0; limit := 20 |}.

Definition demo_now : Z := at_time 2024 3 15 12 0.

(** Five sales, the most recent first. *)
Definition five_sales : list pyval :=
  [tx "2024-03-10T10:00:00Z" 10; tx "2024-03-08T10:00:00Z" 12;
   tx "2024-03-05T10:00:00Z" 14; tx "2024-02-11T10:00:00Z" 16;
   tx "2024-01-20T10:00:00Z" 18].

(** Three sales on two days of the window, and one before it. *)
Definition four_sales : list pyval :=
  [tx "2024-03-10T10:00:00Z" 10; tx "2024-03-10T17:45:00Z" 12;
   tx "2024-03-11T09:00:00Z" 20; tx "2024-02-01T09:00:00Z" 1000].

Definition four_sales_dated : list (Z * float) :=
  [(at_time 2024 3 10 0 0, 10%float); (at_time 2024 3 10 0 0, 12%float);
   (at_time 2024 3 11 0 0, 20%float); (at_time 2024 2 1 0 0, 1000%float)].


Definition demo_page : list token := [token_a; token_b; token_c].

Definition demo_wallet : string := "9xQeWvG816bUx9EPjHmaT23yvVM2ZWbrrpZb9PusVFin".

(** The store knows [token_a], with valuation 100 and supply 50. *)
Definition cached_world : world :=
  demo_world (Some "db.example") demo_page (Ok [row_a (PInt 100)]) demo_post.


(** The marketplace is down: the inventory call fails. *)
Definition offline_world : world :=
  {| POSTGRES_HOST := Some "db.example";
     POSTGRES_PORT := Some "5432";
     POSTGRES_DB := Some "cartel";
     POSTGRES_USER := Some "reader";
     POSTGRES_PASSWORD := Some "secret";
     inventory := λ _ _ _, Raise;
     listings := λ _, Ok [row_a (PInt 100)];
     post := λ _, demo_post;
     clock := λ _, at_time 2024 3 15 12 0;
     completion := λ i, i |}.

(** The record that [demo_post] leads to. *)
Definition demo_record : alt_data :=
  {| res_alt_asset_id := PStr "asset-1";
     res_alt_value := PFloat 110;
     res_avg_price := PFloat 110;
     res_supply := PInt 250;
     res_lower_bound := PFloat 90;
     res_upper_bound := PFloat 130;
     res_confidence := PFloat 0 |}.

(** Two entries of the inventory without [mintAddress]: one with its
    grading attributes, one without any. *)
Definition token_e : token :=
  {| mintAddress := None; name := PStr "Gengar #94";
     image := PStr "https://img.example/e.png";
     attributes := [attr "Grading Company" "PSA"; attr "The Grade" "9";
                    attr "GradeNum" "9"; attr "Grading ID" "33333333"] |}.

Definition token_f : token :=
  {| mintAddress := None; name := PStr "Eevee #133";
     image := PStr "https://img.example/f.png";
     attributes := [] |}.

(** A second entry of the inventory under the mint of [token_c], without
    grading attributes. *)
Definition token_d : token :=
  {| mintAddress := Some "mintC"; name := PStr "Mewtwo (copy)";
     image := PStr "https://img.example/d.png";
     attributes := [] |}.

(** [int] on plain decimal literals such as "3" or "-12". *)
Definition demo_int_of_string (s : string) : option Z :=
  let unsigned (r : string) : option Z :=
    match r with
    | EmptyString => None
    | _ => fst <$> decimal r 0 true 0
    end in
  match s with
  | String "-" r => Z.opp <$> unsigned r
  | _ => unsigned s
  end.

Definition demo_columns : list string := ["token_mint"; "name"; "alt_value"].

Definition demo_rows : list (list pyval) :=
  [[PStr "mintA"; PStr "Charizard"; PInt 100];
   [PStr "mintB"; PStr "Pikachu"; PNone]].

(** A store of 25 listings, of which a page query shows two; [closing] is
    what closing the connection does. *)
Definition demo_store (db_host : option string) (closing : attempt unit)
    : listings_world :=
  {| host := db_host;
     port := Some "5432";
     dbname := Some "cartel";
     user := Some "reader";
     password := Some "secret";
     connect := Done tt;
     count_all := Done 25;
     select_page := λ limit offset,
       Done (if offset <? 25 then demo_rows else [], Some demo_columns);
     select_listed := Done (demo_rows, Some demo_columns);
     close := closing |}.

(** A request for page 0 with limit -3. *)
Definition demo_deals_request : deals_request :=
  {| page_param := Some "0"; limit_param := Some "-3" |}.

Section Runtime.

(** [float(s)] for a string [s]; [None] when it raises [ValueError]. *)
Variable float_of_string : string → option float.

(** [sum(l)] for a list of floats, from the integer [0]: additions from
    left to right up to Python 3.11, a compensated summation since. *)
Variable float_sum : list float → float.

(** [str(v)] for the values whose text depends on the interpreter: floats
    and containers. *)
Variable repr_other : pyval → string.

(** [datetime.fromisoformat(s)] as a naive datetime; [None] when the text is
    not accepted, or carries a UTC offset (comparing the result with
    [datetime.now()] then raises [TypeError]). *)
Variable fromisoformat : string → option Z.

(** The module-level [os.getenv("ALT_AUTH_TOKEN")] and [os.getenv("ALT_COOKIE")]. *)
Variables AUTH_TOKEN COOKIE : option string.

(** [float(v)] *)
Definition py_float (v : pyval) : exc float :=
  match v with
  | PStr s => of_option (float_of_string s)
  | PFloat x => Ok x
  | PInt z => of_option (float_of_int z)
  | PBool b => Ok (if b then 1%float else 0%float)
  | _ => Raise
  end.

(** [sum(l) / len(l)] on floats: [ZeroDivisionError] on the empty list. *)
Definition mean (l : list float) : exc float :=
  match l with
  | [] => Raise
  | _ => Ok (float_sum l / float_of_len (length l))%float
  end.

(** [str(v)], also what an f-string field [{v}] prints. *)
Definition py_str (v : pyval) : string :=
  match v with
  | PNone => "None"
  | PBool true => "True"
  | PBool false => "False"
  | PInt z => pretty z
  | PStr s => s
  | _ => repr_other v
  end.

(** [f"{float(grade):.1f}"] *)
Definition format_grade (grade : pyval) : exc string :=
  x ← py_float grade; Ok (format_1f x).

(** ** The valuation resolver *)

(** The module-level [HEADERS]: five fixed entries, then the bearer token
    and the cookie when they are set. *)
Definition HEADERS : list (string * string) :=
  ([("User-Agent",
     "Mozilla/5.0 (Windows NT 10.0; Win64; x64; rv:142.0) Gecko/20100101 Firefox/142.0");
    ("Accept", "*/*");
    ("Content-Type", "application/json");
    ("Referer", "https://app.alt.xyz/");
    ("Origin", "https://app.alt.xyz")]
   ++ (if env_unset AUTH_TOKEN then []
       else [("authorization", ("Bearer " ++ default "" AUTH_TOKEN)%string)])
   ++ (if env_unset COOKIE then [] else [("Cookie", default "" COOKIE)]))%list.

Definition GRAPHQL_URL : string :=
  "https://alt-platform-server.production.internal.onlyalt.com/graphql/".

Definition cert_query : string :=
  "query Cert($certNumber: String!) { cert(certNumber: $certNumber) { asset { id name __typename } __typename } }".

Definition details_query : string :=
  "
    query AssetDetails($id: ID!, $tsFilter: TimeSeriesFilter!) {
      asset(id: $id) {
        altValueInfo(tsFilter: $tsFilter) {
          currentAltValue
          confidenceData {
            currentConfidenceMetric
            currentErrorLowerBound
            currentErrorUpperBound
          }
        }
        cardPops {
          gradingCompany
          gradeNumber
          count
        }
      }
    }
    ".

Definition transactions_query : string :=
  "
    query AssetMarketTransactions($id: ID!, $marketTransactionFilter: MarketTransactionFilter!) {
      asset(id: $id) {
        marketTransactions(marketTransactionFilter: $marketTransactionFilter) {
          date
          price
        }
      }
    }
    ".

(** The three request bodies; [g] is the formatted grade. *)
Definition cert_payload (cert_id : pyval) : pyval :=
  PDict [
    ("operationName", PStr "Cert");
    ("variables", PDict [("certNumber", cert_id)]);
    ("query", PStr cert_query)].

Definition details_payload (asset_id : pyval) (g : string) (company : pyval) : pyval :=
  PDict [
    ("operationName", PStr "AssetDetails");
    ("variables", PDict [
       ("id", asset_id);
       ("tsFilter", PDict [("gradeNumber", PStr g); ("gradingCompany", company)])]);
    ("query", PStr details_query)].

Definition trans_payload (asset_id : pyval) (g : string) (company : pyval) : pyval :=
  PDict [
    ("operationName", PStr "AssetMarketTransactions");
    ("variables", PDict [
       ("id", asset_id);
       ("marketTransactionFilter", PDict [
          ("gradingCompany", company); ("gradeNumber", PStr g);
          ("showSkipped", PBool true)])]);
    ("query", PStr transactions_query)].

(** The body of the [try] of [get_asset_id_async]; [PNone] is [None]. *)
Definition get_asset_id_try (post : client) (cert_id : pyval) : exc pyval :=
  let payload := cert_payload cert_id in
  response ← post GRAPHQL_URL payload;
  if negb (status_code response =? 200) then Ok PNone else
  data ← json response;
  d ← py_get data "data" (PDict []);
  c ← py_get d "cert" (PDict []);
  asset ← py_get c "asset" PNone;
  if truthy asset then
    has_id ← py_in "id" asset;
    if (has_id : bool) then py_getitem asset "id" else Ok PNone
  else Ok PNone.

Definition get_asset_id_async (post : client) (cert_id : pyval) : exc pyval :=
  try_except (get_asset_id_try post cert_id) PNone.

(** The loop over [cardPops] that sets [supply], with its [break]. *)
Fixpoint scan_pops (pops : list pyval) (grade company : pyval) : exc pyval :=
  match pops with
  | [] => Ok (PInt 0)
  | pop :: rest =>
      gc ← py_get pop "gradingCompany" PNone;
      if py_eq gc company then
        gn ← py_get pop "gradeNumber" PNone;
        g ← format_grade grade;
        if String.eqb (py_str gn) g then py_get pop "count" (PInt 0)
        else scan_pops rest grade company
      else scan_pops rest grade company
  end.

(** [float(tx['price'])] *)
Definition tx_price (tx : pyval) : exc float :=
  p ← py_getitem tx "price"; py_float p.

(** [datetime.fromisoformat(tx['date'].split('T')[0])] *)
Definition tx_date (tx : pyval) : exc Z :=
  d ← py_getitem tx "date";
  match d with
  | PStr s => of_option (fromisoformat (split_T_0 s))
  | _ => Raise
  end.

(** One turn of the loop that fills [daily_prices]. *)
Definition daily_step (fifteen_days_ago : Z)
    (daily_prices : list (Z * list float)) (tx : pyval)
    : exc (list (Z * list float)) :=
  t ← tx_date tx;
  if fifteen_days_ago <=? t then
    p ← tx_price tx; Ok (dd_append (strftime_day t) p daily_prices)
  else Ok daily_prices.

(** The computation of [avg_price] (lines 122-134), the specification's
    [aggregate_price]; [now] is [datetime.now()]. *)
Definition aggregate_price (transactions supply : pyval) (now : Z) : exc float :=
  liquid ← py_gt supply 3000;
  if (liquid : bool) then
    let fifteen_days_ago := now - 15 * us_per_day in
    txs ← py_iter transactions;
    daily_prices ← foldM (daily_step fifteen_days_ago) [] txs;
    match daily_prices with
    | [] => Ok 0%float
    | _ =>
        daily_averages ← mapM (λ kv, mean (snd kv)) daily_prices;
        match daily_averages with
        | [] => Ok 0%float
        | _ => mean daily_averages
        end
    end
  else
    txs ← py_slice_to 4 transactions;
    recent_sales ← mapM tx_price txs;
    match recent_sales with
    | [] => Ok 0%float
    | _ => mean recent_sales
    end.

(** The body of the [try] of [get_alt_data_async]. The two queries of the
    inner [asyncio.gather] are independent: whichever fails, the body
    raises. *)
Definition get_alt_data_try (post : client) (now : Z)
    (asset_id grade company : pyval) : exc (option alt_data) :=
  g1 ← format_grade grade;
  g2 ← format_grade grade;
  details_response ← post GRAPHQL_URL (details_payload asset_id g1 company);
  trans_response ← post GRAPHQL_URL (trans_payload asset_id g2 company);
  if negb (status_code details_response =? 200)
     || negb (status_code trans_response =? 200)
  then Ok None else
  dj ← json details_response;
  dd ← py_get dj "data" (PDict []);
  da ← py_get dd "asset" (PDict []);
  let details_data := py_or da (PDict []) in
  tj ← json trans_response;
  td ← py_get tj "data" (PDict []);
  ta ← py_get td "asset" (PDict []);
  transactions ← py_get ta "marketTransactions" (PList []);
  avi ← py_get details_data "altValueInfo" (PDict []);
  let alt_value_info := py_or avi (PDict []) in
  cd ← py_get alt_value_info "confidenceData" (PDict []);
  let confidence_data := py_or cd (PDict []) in
  card_pops ← py_get details_data "cardPops" (PList []);
  pops ← py_iter card_pops;
  supply ← scan_pops pops grade company;
  avg_price ← aggregate_price transactions supply now;
  current_alt_value ← py_get alt_value_info "currentAltValue" PNone;
  lower ← py_get confidence_data "currentErrorLowerBound" PNone;
  upper ← py_get confidence_data "currentErrorUpperBound" PNone;
  metric ← py_get confidence_data "currentConfidenceMetric" PNone;
  Ok (Some {|
    res_alt_asset_id := asset_id;
    res_alt_value := py_or current_alt_value (PFloat 0);
    res_avg_price := PFloat avg_price;
    res_supply := supply;
    res_lower_bound := py_or lower (PFloat 0);
    res_upper_bound := py_or upper (PFloat 0);
    res_confidence := py_or metric (PFloat 0) |}).

Definition get_alt_data_async (post : client) (now : Z)
    (cert_id grade company : pyval) : exc (option alt_data) :=
  if env_unset AUTH_TOKEN || env_unset COOKIE then Ok None else
  asset_id ← get_asset_id_async post cert_id;
  if negb (truthy asset_id) then Ok None else
  try_except (get_alt_data_try post now asset_id grade company) None.

(** ** The orchestrator *)

Fixpoint get_attr (attrs : list attribute) (trait : string) : pyval :=
  match attrs with
  | [] => PNone
  | a :: rest =>
      if py_eq (trait_type a) (PStr trait) then value a else get_attr rest trait
  end.

(** The entry stored for a row of the cache. *)
Definition of_row (row : db_row) : cartel :=
  {| c_alt_value := row_alt_value row;
     c_cartel_avg := row_avg_price row;
     c_supply := row_supply row;
     c_alt_asset_id := row_alt_asset_id row;
     c_alt_range :=
       match row_alt_value_lower_bound row, row_alt_value_upper_bound row with
       | PNone, _ | _, PNone => PNone
       | lo, hi => PStr (py_str lo ++ " - " ++ py_str hi)
       end;
     c_db_name := row_name row;
     c_db_grade := row_grade row;
     c_db_grade_num := row_grade_num row;
     c_db_grading_id := row_grading_id row;
     c_db_img_url := row_img_url row |}.

(** The entry stored for a fetched valuation. *)
Definition of_res (res : alt_data) : cartel :=
  {| c_alt_value := res_alt_value res;
     c_cartel_avg := res_avg_price res;
     c_supply := res_supply res;
     c_alt_asset_id := res_alt_asset_id res;
     c_alt_range :=
       PStr (py_str (res_lower_bound res) ++ " - " ++ py_str (res_upper_bound res));
     c_db_name := PNone; c_db_grade := PNone; c_db_grade_num := PNone;
     c_db_grading_id := PNone; c_db_img_url := PNone |}.

(** [all([host, port, dbname, user, password])]: the five settings of the
    relational store are there. *)
Definition store_configured (w : world) : bool :=
  forallb (λ v, negb (env_unset v))
    [POSTGRES_HOST w; POSTGRES_PORT w; POSTGRES_DB w; POSTGRES_USER w;
     POSTGRES_PASSWORD w].

(** Step 2a: the cache lookup. [cursor.close()] and [conn.close()] come
    after the rows are stored, so their failure changes nothing. *)
Definition cache_lookup (w : world) (token_mints : list string)
    : gmap (option string) cartel :=
  if match token_mints with [] => false | _ => true end && store_configured w then
    match listings w token_mints with
    | Ok rows =>
        foldl (λ m row, <[Some (row_token_mint row) := of_row row]> m) ∅ rows
    | Raise => ∅
    end
  else ∅.

(** Step 3, first loop: [tokens_to_fetch] and [tasks]. *)
Definition plan_step (cartel_data_map : gmap (option string) cartel)
    (acc : list (option string) * list task) (t : token)
    : list (option string) * list task :=
  let '(tokens_to_fetch, tasks) := acc in
  let mint := mintAddress t in
  if decide (is_Some (cartel_data_map !! mint)) then acc else
  let cert_id := get_attr (attributes t) "Grading ID" in
  let grade := get_attr (attributes t) "The Grade" in
  let company := get_attr (attributes t) "Grading Company" in
  if truthy cert_id && truthy grade && truthy company then
    (tokens_to_fetch ++ [mint], tasks ++ [Resolve cert_id grade company])%list
  else
    (tokens_to_fetch ++ [mint], tasks ++ [Sleep])%list.

Definition plan (cartel_data_map : gmap (option string) cartel)
    (tokens : list token) : list (option string) * list task :=
  foldl (plan_step cartel_data_map) ([], []) tokens.

(** What awaiting task number [i] gives. *)
Definition run_task (w : world) (i : nat) (t : task) : exc (option alt_data) :=
  match t with
  | Resolve cert_id grade company =>
      get_alt_data_async (post w i) (clock w i) cert_id grade company
  | Sleep => Ok None
  end.

(** The order in which the children of a batch finish: by completion time,
    the earlier index first among equals. *)
Fixpoint insert_by (rank : nat → nat) (i : nat) (l : list nat) : list nat :=
  match l with
  | [] => [i]
  | j :: l' =>
      if (rank j <=? rank i)%nat then j :: insert_by rank i l' else i :: j :: l'
  end.

Definition completion_order (rank : nat → nat) (n : nat) : list nat :=
  foldl (λ l i, insert_by rank i l) [] (seq 0 n).

(** [await asyncio.gather] over [tasks]: every child stores its outcome at its
    own index when it finishes; the batch raises if a child raised, and
    otherwise gives the values in the order of [tasks]. *)
Definition gather {A} (rank : nat → nat) (tasks : list (exc A)) : exc (list A) :=
  let n := length tasks in
  let slots :=
    foldl (λ acc i, <[i := tasks !! i]> acc) (replicate n None)
      (completion_order rank n) in
  mapM (λ slot : option (exc A), default Raise slot) slots.

(** Step 3, second loop: the fetched valuations enter [cartel_data_map]. *)
Definition store_step (tokens_to_fetch : list (option string))
    (m : gmap (option string) cartel) (ir : nat * option alt_data)
    : exc (gmap (option string) cartel) :=
  match ir.2 with
  | Some res =>
      mint ← of_option (tokens_to_fetch !! ir.1);
      Ok (<[mint := of_res res]> m)
  | None => Ok m
  end.

Definition store_results (tokens_to_fetch : list (option string))
    (m : gmap (option string) cartel) (results : list (option alt_data))
    : exc (gmap (option string) cartel) :=
  foldM (store_step tokens_to_fetch) m (zip (seq 0 (length results)) results).

(** Step 4: the view of one token, from its [c_data]. *)
Definition format_with (c_data : cartel) (t : token) : formatted :=
  let mint := mintAddress t in
  let grade := get_attr (attributes t) "The Grade" in
  let grade_num := get_attr (attributes t) "GradeNum" in
  let alt_asset_id := c_alt_asset_id c_data in
  let alt_link :=
    if truthy alt_asset_id
    then PStr ("https://alt.xyz/assets/" ++ py_str alt_asset_id) else PNone in
  {| out_mint := mint;
     out_name := py_or (c_db_name c_data) (name t);
     out_grade := py_or (c_db_grade c_data) grade;
     out_grading_number := py_or (c_db_grade_num c_data) grade_num;
     out_supply := c_supply c_data;
     out_img := py_or (c_db_img_url c_data) (image t);
     out_alt_value := py_or (c_alt_value c_data) (PStr "N/A");
     out_alt_range := py_or (c_alt_range c_data) (PStr "N/A");
     out_cartel_avg := py_or (c_cartel_avg c_data) (PStr "N/A");
     out_alt_link := py_or alt_link (PStr "N/A") |}.

(** [c_data = cartel_data_map.get(mint, {})], then the view. *)
Definition format_token (cartel_data_map : gmap (option string) cartel)
    (t : token) : formatted :=
  format_with (default cartel_empty (cartel_data_map !! mintAddress t)) t.

(** The mints sent to the cache: the truthy ones. *)
Definition token_mints_of (tokens : list token) : list string :=
  omap (λ t, match mintAddress t with
             | Some s => if String.eqb s "" then None else Some s
             | None => None
             end) tokens.

(** Steps 3 and 4 of [main]: from the page and the cache to the token views. *)
Definition enrich (w : world) (cartel_data_map : gmap (option string) cartel)
    (tokens : list token) : exc (list formatted) :=
  let '(tokens_to_fetch, tasks) := plan cartel_data_map tokens in
  cartel_data_map' ←
    match tasks with
    | [] => Ok cartel_data_map
    | _ =>
        results ← gather (completion w) (imap (run_task w) tasks);
        store_results tokens_to_fetch cartel_data_map results
    end;
  Ok (foldl (λ formatted_tokens t,
             (formatted_tokens ++ [format_token cartel_data_map' t])%list)
        [] tokens).

(** The body of the outer [try] of [main]. *)
Definition main_try (w : world) (wallet_address : string) (offset limit : Z)
    : exc result :=
  tokens ← inventory w wallet_address limit offset;
  let token_mints := token_mints_of tokens in
  let cartel_data_map := cache_lookup w token_mints in
  formatted_tokens ← enrich w cartel_data_map tokens;
  Ok {| r_wallet := wallet_address;
        r_tokens := formatted_tokens;
        r_count := Z.of_nat (length formatted_tokens);
        r_offset := offset;
        r_limit := limit |}.

(** [main]: the answer to a request. The text of the 500 answer ends, in
    the code, with the message of the exception, which [Raise] does not
    carry. *)
Definition main (w : world) (req : request) : HttpResponse :=
  match wallet req with
  | None | Some "" =>
      {| status := 400;
         content := Text "Please pass a wallet address on the query string" |}
  | Some wallet_address =>
      match main_try w wallet_address (offset req) (limit req) with
      | Ok r => {| status := 200; content := Json r |}
      | Raise => {| status := 500; content := Text "Error fetching wallet holdings" |}
      end
  end.

(** ** The listing functions *)

(** [int(s)] for a text [s]; [None] when it raises [ValueError]. *)
Variable int_of_string : string → option Z.

(** [int(req.params.get(name, dflt))] *)
Definition param_int (p : option string) (dflt : Z) : attempt Z :=
  match p with
  | None => Done dflt
  | Some s =>
      match int_of_string s with
      | Some z => Done z
      | None => Failed OtherError
      end
  end.

(** [all([host, port, dbname, user, password])] *)
Definition fully_configured (w : listings_world) : bool :=
  forallb (λ v, negb (env_unset v))
    [host w; port w; dbname w; user w; password w].

(** [dict(zip(colnames, row))]: a later column of the same name wins. *)
Definition row_dict (colnames : list string) (row : list pyval)
    : gmap string pyval :=
  foldl (λ d kv, <[kv.1 := kv.2]> d) ∅ (zip colnames row).

(** The [result] of both functions: one dict per row, or nothing when there
    is no row or no description. *)
Definition rows_to_dicts (fetched : fetched_rows) : list (gmap string pyval) :=
  match fetched with
  | ((_ :: _) as rows, Some ((_ :: _) as colnames)) =>
      map (row_dict colnames) rows
  | _ => []
  end.

Definition configuration_incomplete : string :=
  "Server error: Database configuration is incomplete.".

Definition database_error : string :=
  "Server error: Could not connect to or query the database.".

Definition unexpected_error : string := "An unexpected error occurred.".

(** The two handlers of the [try]. *)
Definition handle {A} (body : attempt (reply A)) : reply A :=
  match body with
  | Done r => r
  | Failed PsycopgError => {| code := 500; payload := inl database_error |}
  | Failed OtherError => {| code := 500; payload := inl unexpected_error |}
  end.

(** [math.ceil(total_count / limit)]: the division of two integers gives
    a float, and the ceiling is taken of that float. *)
Definition page_count (total_count limit : Z) : exc Z :=
  quotient ← int_truediv total_count limit; py_ceil quotient.

(** The body of the [try] of [main] of [get-all-deals]. *)
Definition get_all_deals_try (w : listings_world) (req : deals_request)
    : attempt (reply deals_data) :=
  if negb (fully_configured w) then
    Done {| code := 500; payload := inl configuration_incomplete |}
  else
  page ← param_int (page_param req) 1;
  limit ← param_int (limit_param req) 10;
  let page := if page <? 1 then 1 else page in
  let limit := if limit <? 1 then 10 else limit in
  let offset := (page - 1) * limit in
  _ ← connect w;
  total_count ← count_all w;
  total_pages ← other_error (page_count total_count limit);
  fetched ← select_page w limit offset;
  let result := rows_to_dicts fetched in
  _ ← close w;
  Done {| code := 200;
          payload := inr
            {| dd_data := result;
               dd_pagination :=
                 {| pg_page := page; pg_limit := limit;
                    pg_total := total_count; pg_total_pages := total_pages |} |} |}.

(** [main] of [get-all-deals]. *)
Definition get_all_deals_main (w : listings_world) (req : deals_request)
    : reply deals_data :=
  handle (get_all_deals_try w req).

(** The body of the [try] of [main] of [get-listings]. *)
Definition get_listings_try (w : listings_world)
    : attempt (reply (list (gmap string pyval))) :=
  if negb (fully_configured w) then
    Done {| code := 500; payload := inl configuration_incomplete |}
  else
  _ ← connect w;
  fetched ← select_listed w;
  let result := rows_to_dicts fetched in
  _ ← close w;
  Done {| code := 200; payload := inr result |}.

(** [main] of [get-listings]. *)
Definition get_listings_main (w : listings_world)
    : reply (list (gmap string pyval)) :=
  handle (get_listings_try w).

(** ** The liquid branch, as the specification words it *)

(** The distinct elements of a list, each at its first occurrence. *)
Fixpoint distinct (l : list Z) : list Z :=
  match l with
  | [] => []
  | d :: r => d :: filter (λ e, e ≠ d) (distinct r)
  end.

(** A datetime [t] lies in the window of [now]: not earlier than fifteen
    days before it. The window has no upper end. *)
Definition in_window (now t : Z) : Prop := now - 15 * us_per_day ≤ t.

Global Instance in_window_dec now t : Decision (in_window now t).
Proof. unfold in_window. apply _. Defined.

(** The prices of the transactions of calendar day [d]. *)
Definition prices_on (d : Z) (txs : list (Z * float)) : list float :=
  (filter (λ tx, strftime_day tx.1 = d) txs).*2.

(** The mean of a list of floats in Python's arithmetic: the [sum] of the
    list divided by its length, both operations rounding. *)
Definition float_mean (l : list float) : float :=
  (float_sum l / float_of_len (length l))%float.

(** The mean, or [0.0] for no price at all. *)
Definition mean_or_zero (l : list float) : float :=
  match l with [] => 0%float | _ => float_mean l end.

(** Filter to the window, group by calendar day, take the mean of each
    day, and the mean of those. A transaction is the datetime that the code
    gives it (the midnight of its day) and its price. *)
Definition liquid_price_spec (now : Z) (txs : list (Z * float)) : float :=
  let recent := filter (λ tx, in_window now tx.1) txs in
  let days := distinct (map (λ tx, strftime_day tx.1) recent) in
  mean_or_zero (map (λ d, float_mean (prices_on d recent)) days).

(** ** The grade text, for the grades that occur *)

(** [f"{float(z):.1f}"] for an integer [z]. *)
Definition format_int_1f (z : Z) : option string :=
  format_1f <$> float_of_int z.

(** [f"{x:.1f}"] for the float nearest to [k] tenths. *)
Definition format_tenths_1f (k : Z) : exc string :=
  x ← int_truediv k 10; Ok (format_1f x).

(** ** The supply count, as the specification words it *)





(** ** The failure modes of the resolver *)

(** The asset identifier of an identity answer, when [data], [cert],
    [asset] and [id] are all there. *)
Definition body_asset_id (body : pyval) : option pyval :=
  match body with
  | PDict b =>
      match assoc_get "data" b with
      | Some (PDict d) =>
          match assoc_get "cert" d with
          | Some (PDict c) =>
              match assoc_get "asset" c with
              | Some (PDict a) => assoc_get "id" a
              | _ => None
              end
          | _ => None
          end
      | _ => None
      end
  | _ => None
  end.

Inductive resolver_failure (post : client) (now : Z)
    (cert_id grade company : pyval) : Prop :=
| identity_transport_error :
    post GRAPHQL_URL (cert_payload cert_id) = Raise →
    resolver_failure post now cert_id grade company
| identity_bad_status (r : response) :
    post GRAPHQL_URL (cert_payload cert_id) = Ok r →
    status_code r ≠ 200 →
    resolver_failure post now cert_id grade company
| identity_bad_json (r : response) :
    post GRAPHQL_URL (cert_payload cert_id) = Ok r →
    json r = Raise →
    resolver_failure post now cert_id grade company
| identity_missing_fields (r : response) (body : pyval) :
    post GRAPHQL_URL (cert_payload cert_id) = Ok r →
    json r = Ok body →
    body_asset_id body = None →
    resolver_failure post now cert_id grade company
| detail_bad_status (asset_id : pyval) (g : string) (dr tr : response) :
    get_asset_id_async post cert_id = Ok asset_id →
    format_grade grade = Ok g →
    post GRAPHQL_URL (details_payload asset_id g company) = Ok dr →
    post GRAPHQL_URL (trans_payload asset_id g company) = Ok tr →
    status_code dr ≠ 200 ∨ status_code tr ≠ 200 →
    resolver_failure post now cert_id grade company
| detail_exception (asset_id : pyval) :
    get_asset_id_async post cert_id = Ok asset_id →
    get_alt_data_try post now asset_id grade company = Raise →
    resolver_failure post now cert_id grade company.

(** ** The answers behind a valuation record *)

(** The entries of [cardPops] in the answer to the detail query. *)
Definition card_pops_of (details_json : pyval) : exc (list pyval) :=
  dd ← py_get details_json "data" (PDict []);
  da ← py_get dd "asset" (PDict []);
  card_pops ← py_get (py_or da (PDict [])) "cardPops" (PList []);
  py_iter card_pops.

(** The transactions in the answer to the transaction query. *)
Definition transactions_of (trans_json : pyval) : exc pyval :=
  td ← py_get trans_json "data" (PDict []);
  ta ← py_get td "asset" (PDict []);
  py_get ta "marketTransactions" (PList []).

(** ** The orchestrator, step by step *)

(** The outcome of a child as a value: a child never raises. *)
Definition task_result (w : world) (i : nat) (t : task) : option alt_data :=
  match run_task w i t with Ok r => r | Raise => None end.

(** The coroutine made for a token that is not in the cache. *)
Definition task_of (t : token) : task :=
  let cert_id := get_attr (attributes t) "Grading ID" in
  let grade := get_attr (attributes t) "The Grade" in
  let company := get_attr (attributes t) "Grading Company" in
  if truthy cert_id && truthy grade && truthy company
  then Resolve cert_id grade company else Sleep.

(** The tokens of the page that the cache does not know, in page order. *)
Definition missing (m : gmap (option string) cartel) (tokens : list token)
    : list token :=
  filter (λ t, m !! mintAddress t = None) tokens.

(** What the batch brings: for each missing token, its mint and the
    outcome of its own child. *)
Definition fetched (w : world) (miss : list token)
    : list (option string * option alt_data) :=
  imap (λ j t, (mintAddress t, task_result w j (task_of t))) miss.

Definition store_pure (m : gmap (option string) cartel)
    (kr : option string * option alt_data) : gmap (option string) cartel :=
  match kr.2 with
  | Some res => <[kr.1 := of_res res]> m
  | None => m
  end.

(** [cartel_data_map] when step 4 starts. *)
Definition final_map (w : world) (m : gmap (option string) cartel)
    (tokens : list token) : gmap (option string) cartel :=
  foldl store_pure m (fetched w (missing m tokens)).

(** ** Vocabulary of the statements about the orchestrator *)

(** A view shows every valuation field as unavailable. *)
Definition unavailable (o : formatted) : Prop :=
  out_alt_value o = PStr "N/A" ∧ out_alt_range o = PStr "N/A"
  ∧ out_cartel_avg o = PStr "N/A" ∧ out_alt_link o = PStr "N/A".

(** The token has its certificate id, its grade and its grading company. *)
Definition has_grading_attributes (t : token) : bool :=
  truthy (get_attr (attributes t) "Grading ID")
  && truthy (get_attr (attributes t) "The Grade")
  && truthy (get_attr (attributes t) "Grading Company").

(** The same world with another order of completion of the sub-tasks. *)
Definition with_completion (rank : nat → nat) (w : world) : world :=
  {| POSTGRES_HOST := POSTGRES_HOST w;
     POSTGRES_PORT := POSTGRES_PORT w;
     POSTGRES_DB := POSTGRES_DB w;
     POSTGRES_USER := POSTGRES_USER w;
     POSTGRES_PASSWORD := POSTGRES_PASSWORD w;
     inventory := inventory w;
     listings := listings w;
     post := post w;
     clock := clock w;
     completion := rank |}.

(** ** Reasoning about [exc] *)

Local Open Scope list_scope.

Lemma bind_Ok {A B} (m : exc A) (f : A → exc B) (b : B) :
  (m ≫= f) = Ok b ↔ ∃ a, m = Ok a ∧ f a = Ok b.
Proof.
  destruct m as [a|]; simpl; split.
  - intros H. exists a. auto.
  - intros (a' & Ha & Hf). injection Ha as ->. exact Hf.
  - discriminate.
  - intros (a' & Ha & _). discriminate.
Qed.

Lemma try_except_Ok {A} (body : exc A) (handler : A) :
  ∃ a, try_except body handler = Ok a.
Proof. destruct body; simpl; eauto. Qed.

Lemma try_except_Raise {A} (handler : A) : try_except Raise handler = Ok handler.
Proof. reflexivity. Qed.


Lemma mapM_exc_Ok {A B} (f : A → exc B) (l : list A) (k : list B) :
  mapM f l = Ok k → Forall2 (λ x y, f x = Ok y) l k.
Proof.
  revert k. induction l as [|x l IH]; intros k.
  - intros [= <-]. constructor.
  - change (mapM f (x :: l)) with (y ← f x; k ← mapM f l; mret (y :: k)).
    destruct (f x) as [y|] eqn:Hx; [|discriminate]. simpl.
    destruct (mapM f l) as [k'|]; [|discriminate]. simpl.
    intros [= <-]. constructor; auto.
Qed.

(** ** The mean *)

Lemma mean_Ok (l : list float) : l ≠ [] → mean l = Ok (float_mean l).
Proof. destruct l; [congruence|reflexivity]. Qed.

Lemma py_gt_int (z n : Z) : py_gt (PInt z) n = Ok (n <? z).
Proof.
  unfold py_gt. simpl. f_equal.
  destruct (Z.ltb_spec n z) as [H|H].
  - apply negb_true_iff. apply not_true_is_false. rewrite Qle_bool_iff.
    rewrite <- Zle_Qle. lia.
  - apply negb_false_iff. apply Qle_bool_iff. rewrite <- Zle_Qle. lia.
Qed.


(** ** The liquid branch *)

Lemma elem_of_distinct (d : Z) (l : list Z) : d ∈ distinct l ↔ d ∈ l.
Proof.
  induction l as [|a l IH]; simpl; [reflexivity|].
  rewrite !elem_of_cons, list_elem_of_filter, IH.
  destruct (decide (d = a)); tauto.
Qed.

Lemma NoDup_distinct (l : list Z) : NoDup (distinct l).
Proof.
  induction l as [|a l IH]; simpl; constructor.
  - rewrite list_elem_of_filter. tauto.
  - apply NoDup_filter, IH.
Qed.

Lemma distinct_snoc (l : list Z) (d : Z) :
  distinct (l ++ [d]) =
  if decide (d ∈ l) then distinct l else distinct l ++ [d].
Proof.
  induction l as [|a l IH]; simpl.
  - reflexivity.
  - rewrite IH.
    destruct (decide (d ∈ l)) as [Hin|Hin];
      destruct (decide (d ∈ a :: l)) as [Hin'|Hin'];
      rewrite elem_of_cons in Hin'; try tauto.
    + rewrite filter_app, filter_cons, filter_nil.
      destruct (decide (d ≠ a)) as [Hne|Heq]; [tauto|].
      rewrite app_nil_r. reflexivity.
    + rewrite filter_app, filter_cons, filter_nil.
      destruct (decide (d ≠ a)) as [Hne|Heq]; [reflexivity|].
      exfalso. apply Hin'. left. destruct (decide (d = a)); tauto.
Qed.

(** Appending to the grouped dictionary, when its keys are distinct. *)
Lemma dd_append_map (g : Z → list float) (ks : list Z) (d : Z) (x : float) :
  NoDup ks →
  dd_append d x (map (λ k, (k, g k)) ks) =
  if decide (d ∈ ks)
  then map (λ k, (k, if decide (k = d) then g k ++ [x] else g k)) ks
  else map (λ k, (k, g k)) ks ++ [(d, [x])].
Proof.
  induction 1 as [|k ks Hk Hnd IH]; simpl.
  - reflexivity.
  - rewrite IH.
    destruct (decide (d ∈ ks)) as [Hin|Hin];
      destruct (decide (d ∈ k :: ks)) as [Hin'|Hin'];
      rewrite elem_of_cons in Hin';
      destruct (Z.eqb_spec k d) as [Heq|Hne]; simpl;
      try (exfalso; subst; tauto).
    + rewrite decide_False by exact Hne. reflexivity.
    + subst k. rewrite decide_True by reflexivity. f_equal.
      apply map_ext_in. intros k Hin2. apply list_elem_of_In in Hin2.
      rewrite decide_False by (intros ->; contradiction). reflexivity.
    + exfalso. destruct Hin' as [E|E]; [apply Hne; congruence | tauto].
    + reflexivity.
Qed.

Lemma filter_none {A} (P : A → Prop) `{∀ x, Decision (P x)} (l : list A) :
  (∀ x, x ∈ l → ¬ P x) → filter P l = [].
Proof.
  induction l as [|a l IH]; intros Hl; [reflexivity|].
  rewrite filter_cons_False.
  - apply IH. intros x Hx. apply Hl. apply elem_of_cons. right. exact Hx.
  - apply Hl. apply elem_of_cons. left. reflexivity.
Qed.

Lemma prices_on_snoc (d : Z) (l : list (Z * float)) (tx : Z * float) :
  prices_on d (l ++ [tx]) =
  if decide (strftime_day tx.1 = d) then prices_on d l ++ [tx.2] else prices_on d l.
Proof.
  unfold prices_on. rewrite filter_app, filter_cons, filter_nil.
  destruct (decide (strftime_day tx.1 = d)).
  - rewrite fmap_app. reflexivity.
  - rewrite app_nil_r. reflexivity.
Qed.

(** The loop over [daily_prices] computes the grouping by calendar day. *)
Lemma foldl_dd_append_groups (l : list (Z * float)) :
  foldl (λ acc tx, dd_append (strftime_day tx.1) tx.2 acc) [] l =
  map (λ d, (d, prices_on d l)) (distinct (map (λ tx, strftime_day tx.1) l)).
Proof.
  induction l as [|tx l IH] using rev_ind; [reflexivity|].
  rewrite foldl_snoc, IH, map_app. simpl map at 3.
  rewrite distinct_snoc, dd_append_map by apply NoDup_distinct.
  set (days := map (λ tx0 : Z * float, strftime_day tx0.1) l).
  destruct (decide (strftime_day tx.1 ∈ distinct days)) as [Hin'|Hin'];
    destruct (decide (strftime_day tx.1 ∈ days)) as [Hin|Hin];
    rewrite elem_of_distinct in Hin'; try tauto.
  - apply map_ext. intros d. rewrite prices_on_snoc.
    destruct (decide (d = strftime_day tx.1)) as [->|Hne].
    + rewrite decide_True by reflexivity. reflexivity.
    + rewrite decide_False by congruence. reflexivity.
  - rewrite map_app. simpl. f_equal.
    + apply map_ext_in. intros d Hd. apply list_elem_of_In in Hd. rewrite elem_of_distinct in Hd.
      rewrite prices_on_snoc.
      rewrite decide_False by (intros E; apply Hin; rewrite E; exact Hd).
      reflexivity.
    + rewrite prices_on_snoc. rewrite decide_True by reflexivity.
      f_equal. f_equal.
      unfold prices_on.
      replace (filter (λ tx0 : Z * float, strftime_day tx0.1 = strftime_day tx.1) l)
        with (@nil (Z * float)); [reflexivity|].
      symmetry. apply filter_none. intros tx' Hin2 E.
      apply Hin. subst days. rewrite <- E.
      apply list_elem_of_In.
      apply (in_map (λ tx0 : Z * float, strftime_day tx0.1)).
      apply list_elem_of_In. exact Hin2.
Qed.

Lemma filter_idemp {A} (P : A → Prop) `{∀ x, Decision (P x)} (l : list A) :
  filter P (filter P l) = filter P l.
Proof.
  induction l as [|a l IH]; [reflexivity|].
  rewrite filter_cons. destruct (decide (P a)) as [Ha|Ha].
  - rewrite filter_cons_True by exact Ha. rewrite IH. reflexivity.
  - exact IH.
Qed.

Lemma foldM_cons {A B} (f : A → B → exc A) (a : A) (x : B) (l : list B) :
  foldM f a (x :: l) = f a x ≫= λ a', foldM f a' l.
Proof. reflexivity. Qed.

Lemma daily_step_dated (fifteen_days_ago : Z) (acc : list (Z * list float))
    (tx : pyval) (t : Z) (p : float) :
  tx_date tx = Ok t → tx_price tx = Ok p →
  daily_step fifteen_days_ago acc tx =
  Ok (if fifteen_days_ago <=? t then dd_append (strftime_day t) p acc else acc).
Proof.
  intros Hd Hp. unfold daily_step. rewrite Hd. simpl.
  destruct (fifteen_days_ago <=? t); [rewrite Hp|]; reflexivity.
Qed.

(** The loop of the liquid branch on transactions that carry a date and a
    price: the transactions of the window are grouped, in their order. *)
Lemma foldM_daily_step (now : Z) (txs : list pyval) (dated : list (Z * float))
    (acc : list (Z * list float)) :
  Forall2 (λ tx dp, tx_date tx = Ok dp.1 ∧ tx_price tx = Ok dp.2) txs dated →
  foldM (daily_step (now - 15 * us_per_day)) acc txs =
  Ok (foldl (λ acc tx, dd_append (strftime_day tx.1) tx.2 acc) acc
        (filter (λ tx, in_window now tx.1) dated)).
Proof.
  intros H. revert acc.
  induction H as [|tx dp txs dated [Hd Hp] _ IH]; intros acc; [reflexivity|].
  rewrite foldM_cons, (daily_step_dated _ _ _ _ _ Hd Hp). simpl.
  rewrite filter_cons. unfold in_window at 1.
  destruct (Z.leb_spec (now - 15 * us_per_day) dp.1) as [Hle|Hlt];
    destruct (decide (now - 15 * us_per_day ≤ dp.1)) as [Hw|Hw]; try lia.
  - simpl. apply IH.
  - apply IH.
Qed.

Lemma prices_on_not_empty (txs : list (Z * float)) (tx : Z * float) :
  tx ∈ txs → prices_on (strftime_day tx.1) txs ≠ [].
Proof.
  intros Hin E. unfold prices_on in E. apply fmap_nil_inv in E.
  assert (H : tx ∈ filter (λ tx0 : Z * float, strftime_day tx0.1 = strftime_day tx.1) txs)
    by (apply list_elem_of_filter; split; [reflexivity|exact Hin]).
  rewrite E in H. apply elem_of_nil in H. exact H.
Qed.

(** The daily means of groups none of which is empty. *)
Lemma mapM_mean_groups (g : Z → list float) (days : list Z) :
  Forall (λ d, g d ≠ []) days →
  mapM (λ kv : Z * list float, mean kv.2) (map (λ d, (d, g d)) days)
  = Ok (map (λ d, float_mean (g d)) days).
Proof.
  induction 1 as [|d days Hd _ IH]; [reflexivity|].
  simpl. rewrite (mean_Ok _ Hd). simpl. rewrite IH. reflexivity.
Qed.

(** The end of the liquid branch, on the grouping by calendar day of the
    transactions [recent]: the mean of the daily means. *)
Lemma mean_of_daily_means (recent : list (Z * float)) :
  (let daily_prices :=
     map (λ d, (d, prices_on d recent))
       (distinct (map (λ tx, strftime_day tx.1) recent)) in
   match daily_prices with
   | [] => Ok 0%float
   | _ =>
       mapM (λ kv : Z * list float, mean kv.2) daily_prices ≫= λ daily_averages,
       match daily_averages with
       | [] => Ok 0%float
       | _ => mean daily_averages
       end
   end)
  = Ok (mean_or_zero
          (map (λ d, float_mean (prices_on d recent))
             (distinct (map (λ tx, strftime_day tx.1) recent)))).
Proof.
  set (days := distinct (map (λ tx : Z * float, strftime_day tx.1) recent)).
  assert (Hdays : Forall (λ d, prices_on d recent ≠ []) days).
  { apply Forall_forall. intros d Hin. subst days.
    rewrite elem_of_distinct in Hin.
    apply list_elem_of_In, in_map_iff in Hin. destruct Hin as (tx & <- & Hin).
    apply prices_on_not_empty, list_elem_of_In. exact Hin. }
  pose proof (mapM_mean_groups (λ d, prices_on d recent) days Hdays) as Hm.
  cbv zeta. destruct days as [|d ds]; [reflexivity|].
  cbv beta in Hm. simpl map at 1. cbv beta iota.
  rewrite Hm. reflexivity.
Qed.

(** C2, as the code has it. When the supply exceeds 3000, the price
    computed is the mean of the daily means of the transactions of the
    window, grouped by calendar day, the means being Python's [sum]
    divided by the length. A transaction is in the window when the midnight
    of its day is not earlier than fifteen days before now: the window has
    no upper end, and its lower end cuts with the time of day of now. The
    transactions outside the window do not count, and with none inside the
    price is [0.0]. When no transaction is dated after now, the window is
    the interval from fifteen days before now to now. *)
Theorem liquid_price_is_mean_of_daily_means
    (txs : list pyval) (supply now : Z) (dated : list (Z * float)) :
  3000 < supply →
  Forall2 (λ tx dp, tx_date tx = Ok dp.1 ∧ tx_price tx = Ok dp.2) txs dated →
  aggregate_price (PList txs) (PInt supply) now = Ok (liquid_price_spec now dated)
  ∧ liquid_price_spec now dated
    = liquid_price_spec now (filter (λ tx, in_window now tx.1) dated)
  ∧ (filter (λ tx, in_window now tx.1) dated = [] →
     liquid_price_spec now dated = 0%float)
  ∧ (Forall (λ tx, tx.1 ≤ now) dated →
     filter (λ tx, in_window now tx.1) dated
     = filter (λ tx, now - 15 * us_per_day ≤ tx.1 ≤ now) dated).
Proof.
  intros Hs Hd. split; [|split; [|split]].
  - unfold aggregate_price. rewrite py_gt_int.
    replace (3000 <? supply) with true by (symmetry; apply Z.ltb_lt; exact Hs).
    simpl. rewrite (foldM_daily_step now txs dated [] Hd). simpl.
    rewrite foldl_dd_append_groups. unfold liquid_price_spec.
    apply (mean_of_daily_means (filter (λ tx, in_window now tx.1) dated)).
  - unfold liquid_price_spec. rewrite filter_idemp. reflexivity.
  - intros E. unfold liquid_price_spec. rewrite E. reflexivity.
  - clear. induction 1 as [|tx dated Htx _ IH]; [reflexivity|].
    rewrite !filter_cons, IH. unfold in_window.
    destruct (decide (now - 15 * us_per_day ≤ tx.1));
      destruct (decide (now - 15 * us_per_day ≤ tx.1 ≤ now));
      first [reflexivity | lia].
Qed.

(** ** The supply count *)



(** ** The resolver never raises *)

Lemma get_asset_id_async_Ok (post : client) (cert_id : pyval) :
  ∃ v, get_asset_id_async post cert_id = Ok v.
Proof. apply try_except_Ok. Qed.

(** Past the status test, an answer without the path to [id] gives [None]. *)
Lemma asset_of_body_missing (body : pyval) :
  body_asset_id body = None →
  try_except
    (d ← py_get body "data" (PDict []);
     c ← py_get d "cert" (PDict []);
     asset ← py_get c "asset" PNone;
     if truthy asset then
       has_id ← py_in "id" asset;
       if (has_id : bool) then py_getitem asset "id" else Ok PNone
     else Ok PNone) PNone = Ok PNone.
Proof.
  intros H. destruct body as [| | | | |l|b]; try reflexivity.
  simpl in H |- *.
  destruct (assoc_get "data" b) as [[| | | | |l|d]|]; try reflexivity; simpl in *.
  destruct (assoc_get "cert" d) as [[| | | | |l|c]|]; try reflexivity; simpl in *.
  destruct (assoc_get "asset" c) as [[|x|z|q|s|l|a]|]; try reflexivity; simpl in *.
  - destruct x; reflexivity.
  - destruct (negb (z =? 0)); reflexivity.
  - destruct (negb (q =? 0)%float); reflexivity.
  - destruct (negb (String.eqb s "")); [|reflexivity]. simpl.
    destruct (str_contains "id" s); reflexivity.
  - destruct l; [reflexivity|]. simpl.
    destruct (_ || _); reflexivity.
  - rewrite H. destruct a; reflexivity.
Qed.

Lemma get_asset_id_async_failure (post : client) (cert_id : pyval) :
  post GRAPHQL_URL (cert_payload cert_id) = Raise
  ∨ (∃ r, post GRAPHQL_URL (cert_payload cert_id) = Ok r
          ∧ (status_code r ≠ 200 ∨ json r = Raise
             ∨ ∃ body, json r = Ok body ∧ body_asset_id body = None)) →
  get_asset_id_async post cert_id = Ok PNone.
Proof.
  unfold get_asset_id_async, get_asset_id_try. cbv zeta.
  intros [H|(r & H & Hr)]; rewrite H; [reflexivity|]. simpl.
  destruct (Z.eqb_spec (status_code r) 200) as [E|E]; simpl; [|reflexivity].
  destruct Hr as [Hr|[Hr|(body & Hr & Hb)]]; [contradiction| |];
    rewrite Hr; [reflexivity|]. simpl.
  apply (asset_of_body_missing body Hb).
Qed.

Lemma get_alt_data_async_Ok (post : client) (now : Z)
    (cert_id grade company : pyval) :
  ∃ r, get_alt_data_async post now cert_id grade company = Ok r.
Proof.
  unfold get_alt_data_async.
  destruct (env_unset AUTH_TOKEN || env_unset COOKIE); [eauto|].
  destruct (get_asset_id_async_Ok post cert_id) as [v ->]. simpl.
  destruct (truthy v); simpl; [apply try_except_Ok|eauto].
Qed.

(** C4. The resolver never raises: it always returns, a valuation or
    nothing. In each failure mode (the identity lookup raising, answering
    with a status other than 200, or with a body that is not JSON or lacks
    the path to the asset identifier; the detail or the transaction query
    answering with a status other than 200; an exception anywhere in the
    detail processing) it returns nothing. *)
Theorem resolver_failure_gives_nothing
    (post : client) (now : Z) (cert_id grade company : pyval) :
  (∃ r, get_alt_data_async post now cert_id grade company = Ok r)
  ∧ (resolver_failure post now cert_id grade company →
     get_alt_data_async post now cert_id grade company = Ok None).
Proof.
  split.
  - apply get_alt_data_async_Ok.
  - intros Hf. unfold get_alt_data_async.
    destruct (env_unset AUTH_TOKEN || env_unset COOKIE); [reflexivity|].
    assert (Hid : get_asset_id_async post cert_id = Ok PNone →
                  get_asset_id_async post cert_id
                  ≫= (λ asset_id,
                        if negb (truthy asset_id) then Ok None
                        else try_except
                               (get_alt_data_try post now asset_id grade company)
                               None) = Ok None).
    { intros ->. reflexivity. }
    destruct Hf as [H|r H Hs|r H Hj|r body H Hj Hb|asset_id g dr tr Ha Hg Hd Ht Hs
                   |asset_id Ha He].
    + apply Hid, get_asset_id_async_failure. left. exact H.
    + apply Hid, get_asset_id_async_failure. right. exists r. tauto.
    + apply Hid, get_asset_id_async_failure. right. exists r. tauto.
    + apply Hid, get_asset_id_async_failure. right. exists r.
      split; [exact H|]. right. right. exists body. tauto.
    + rewrite Ha. simpl. destruct (truthy asset_id); [|reflexivity]. simpl.
      unfold get_alt_data_try. rewrite Hg. simpl. rewrite Hd, Ht. simpl.
      replace (negb (status_code dr =? 200) || negb (status_code tr =? 200))
        with true; [reflexivity|].
      symmetry. apply orb_true_iff.
      destruct Hs as [Hs|Hs]; [left|right];
        apply negb_true_iff, Z.eqb_neq; exact Hs.
    + rewrite Ha. simpl. destruct (truthy asset_id); [|reflexivity]. simpl.
      rewrite He. reflexivity.
Qed.

(** ** What a successful resolution returns *)

Ltac exc_step H x Hx :=
  apply bind_Ok in H; destruct H as (x & Hx & H).

(** The supply of a valuation record is what the scan of [cardPops] found,
    and its average price what [aggregate_price] computed from the
    transactions and that supply. *)
Lemma resolver_result_fields (post : client) (now : Z)
    (asset_id grade company : pyval) (r : alt_data) :
  get_alt_data_try post now asset_id grade company = Ok (Some r) →
  ∃ g dr tr dj tj pops transactions avg,
    format_grade grade = Ok g
    ∧ post GRAPHQL_URL (details_payload asset_id g company) = Ok dr
    ∧ post GRAPHQL_URL (trans_payload asset_id g company) = Ok tr
    ∧ status_code dr = 200 ∧ status_code tr = 200
    ∧ json dr = Ok dj ∧ json tr = Ok tj
    ∧ card_pops_of dj = Ok pops
    ∧ transactions_of tj = Ok transactions
    ∧ scan_pops pops grade company = Ok (res_supply r)
    ∧ aggregate_price transactions (res_supply r) now = Ok avg
    ∧ res_avg_price r = PFloat avg
    ∧ res_alt_asset_id r = asset_id.
Proof.
  unfold get_alt_data_try. intros H.
  exc_step H g Hg. exc_step H g' Hg'.
  assert (g' = g) as -> by congruence.
  exc_step H dr Hdr. exc_step H tr Htr.
  destruct (Z.eqb_spec (status_code dr) 200) as [Hsd|]; [|discriminate H].
  destruct (Z.eqb_spec (status_code tr) 200) as [Hst|]; [|discriminate H].
  simpl in H.
  exc_step H dj Hdj. exc_step H dd Hdd. exc_step H da Hda.
  exc_step H tj Htj. exc_step H td Htd. exc_step H ta Hta.
  exc_step H transactions Htx.
  exc_step H avi Havi. exc_step H cd Hcd.
  exc_step H card_pops Hcp. exc_step H pops Hpops.
  exc_step H supply Hsupply. exc_step H avg Havg.
  exc_step H cv Hcv. exc_step H lo Hlo. exc_step H hi Hhi.
  exc_step H metric Hmetric.
  injection H as <-. simpl.
  exists g, dr, tr, dj, tj, pops, transactions, avg.
  repeat split; try assumption.
  - unfold card_pops_of. rewrite Hdd. simpl. rewrite Hda. simpl.
    rewrite Hcp. exact Hpops.
  - unfold transactions_of. rewrite Htd. simpl. rewrite Hta. exact Htx.
Qed.

(** ** The batch *)

Lemma elem_of_insert_by (rank : nat → nat) (i j : nat) (l : list nat) :
  j ∈ insert_by rank i l ↔ j = i ∨ j ∈ l.
Proof.
  induction l as [|k l IH]; simpl.
  - rewrite list_elem_of_singleton, elem_of_nil. tauto.
  - destruct (rank k <=? rank i)%nat; rewrite !elem_of_cons; [rewrite IH|]; tauto.
Qed.

(** Every child of the batch finishes, once. *)
Lemma elem_of_completion_order (rank : nat → nat) (n j : nat) :
  j ∈ completion_order rank n ↔ (j < n)%nat.
Proof.
  unfold completion_order. induction n as [|n IH].
  - simpl. rewrite elem_of_nil. lia.
  - rewrite seq_S, foldl_snoc, elem_of_insert_by, IH. simpl. lia.
Qed.

Lemma completion_order_perm (rank : nat → nat) (n : nat) :
  Permutation (completion_order rank n) (seq 0 n).
Proof.
  assert (Hins : ∀ i l, Permutation (insert_by rank i l) (i :: l)).
  { intros i l. induction l as [|k l IH]; simpl; [reflexivity|].
    destruct (rank k <=? rank i)%nat; [|reflexivity].
    rewrite IH. apply perm_swap. }
  unfold completion_order. induction n as [|n IH]; [reflexivity|].
  rewrite seq_S, foldl_snoc, Hins, IH. simpl.
  apply Permutation_cons_append.
Qed.

(** The slots of the batch after the children listed in [order] finished. *)
Lemma lookup_slots {A} (tasks : list (exc A)) (order : list nat)
    (slots : list (option (exc A))) (j : nat) :
  (j < length slots)%nat →
  foldl (λ acc i, <[i := tasks !! i]> acc) slots order !! j =
  if decide (j ∈ order) then Some (tasks !! j) else slots !! j.
Proof.
  revert slots. induction order as [|i order IH] using rev_ind; intros slots Hj.
  - simpl. reflexivity.
  - rewrite foldl_snoc.
    assert (Hlen : ∀ o s, length (foldl (λ acc i, <[i := tasks !! i]> acc) s o)
                          = length s).
    { clear. intros o. induction o as [|i o IH]; intros s; simpl; [reflexivity|].
      rewrite IH, length_insert. reflexivity. }
    destruct (decide (j = i)) as [->|Hne].
    + rewrite list_lookup_insert_eq by (rewrite Hlen; exact Hj).
      rewrite decide_True; [reflexivity|].
      apply elem_of_app. right. apply list_elem_of_singleton. reflexivity.
    + rewrite list_lookup_insert_ne by congruence.
      rewrite IH by exact Hj.
      destruct (decide (j ∈ order)) as [Hin|Hin];
        destruct (decide (j ∈ order ++ [i])) as [Hin'|Hin'];
        rewrite elem_of_app, list_elem_of_singleton in Hin';
        try reflexivity; tauto.
Qed.

(** The batch gives the outcomes of its children in the order of [tasks],
    whatever the order in which they finish. *)
Lemma gather_in_task_order {A} (rank : nat → nat) (tasks : list (exc A)) :
  gather rank tasks = mapM id tasks.
Proof.
  unfold gather.
  set (slots := foldl _ _ _).
  assert (Hs : slots = map Some tasks).
  { apply list_eq. intros j. subst slots.
    destruct (decide (j < length tasks)%nat) as [Hj|Hj].
    - rewrite lookup_slots by (rewrite length_replicate; exact Hj).
      rewrite decide_True by (apply elem_of_completion_order; exact Hj).
      change (map Some tasks) with (Some <$> tasks).
      rewrite list_lookup_fmap.
      destruct (lookup_lt_is_Some_2 tasks j Hj) as [t ->]. reflexivity.
    - rewrite !lookup_ge_None_2; [reflexivity| |].
      + rewrite length_map. lia.
      + assert (Hlen : ∀ o s, length (foldl (λ acc i, <[i := tasks !! i]> acc) s o)
                              = length s).
        { clear. intros o. induction o as [|i o IH]; intros s; simpl; [reflexivity|].
          rewrite IH, length_insert. reflexivity. }
        rewrite Hlen, length_replicate. lia. }
  rewrite Hs. clear.
  induction tasks as [|t tasks IH]; [reflexivity|].
  change (mapM id (t :: tasks)) with (y ← t; k ← mapM id tasks; mret (y :: k)).
  rewrite <- IH. reflexivity.
Qed.

Lemma run_task_Ok (w : world) (i : nat) (t : task) :
  run_task w i t = Ok (task_result w i t).
Proof.
  unfold task_result. destruct t as [c g k|]; simpl; [|reflexivity].
  destruct (get_alt_data_async_Ok (post w i) (clock w i) c g k) as [r ->].
  reflexivity.
Qed.

Lemma mapM_id_imap {A B} (f : nat → A → exc B) (g : nat → A → B) (l : list A) :
  (∀ i x, f i x = Ok (g i x)) → mapM id (imap f l) = Ok (imap g l).
Proof.
  revert f g. induction l as [|x l IH]; intros f g H; [reflexivity|].
  simpl imap.
  change (mapM id (f 0%nat x :: imap (f ∘ S) l))
    with (y ← f 0%nat x; k ← mapM id (imap (f ∘ S) l); mret (y :: k)).
  rewrite H. simpl. rewrite (IH (f ∘ S) (g ∘ S)) by (intros; apply H).
  reflexivity.
Qed.

(** ** The steps of the orchestrator *)

Lemma plan_step_spec (m : gmap (option string) cartel)
    (a : list (option string)) (b : list task) (t : token) :
  plan_step m (a, b) t =
  if decide (m !! mintAddress t = None)
  then (a ++ [mintAddress t], b ++ [task_of t]) else (a, b).
Proof.
  unfold plan_step, task_of. cbv zeta.
  destruct (decide (is_Some (m !! mintAddress t))) as [Hs|Hs];
    destruct (decide (m !! mintAddress t = None)) as [Hn|Hn].
  - rewrite Hn in Hs. destruct Hs as [? [=]].
  - reflexivity.
  - destruct (truthy _ && truthy _ && truthy _); reflexivity.
  - exfalso. apply Hs. destruct (m !! mintAddress t); [eauto|congruence].
Qed.

Lemma plan_from (m : gmap (option string) cartel) (tokens : list token)
    (a : list (option string)) (b : list task) :
  foldl (plan_step m) (a, b) tokens =
  (a ++ map mintAddress (missing m tokens), b ++ map task_of (missing m tokens)).
Proof.
  revert a b. induction tokens as [|t tokens IH]; intros a b.
  - simpl. rewrite !app_nil_r. reflexivity.
  - change (foldl (plan_step m) (a, b) (t :: tokens))
      with (foldl (plan_step m) (plan_step m (a, b) t) tokens).
    rewrite plan_step_spec. unfold missing. rewrite filter_cons.
    destruct (decide (m !! mintAddress t = None)).
    + rewrite IH. simpl. rewrite <- !app_assoc. reflexivity.
    + apply IH.
Qed.

(** The first loop of step 3 lists the tokens absent from the cache. *)
Lemma plan_spec (m : gmap (option string) cartel) (tokens : list token) :
  plan m tokens =
  (map mintAddress (missing m tokens), map task_of (missing m tokens)).
Proof. unfold plan. rewrite plan_from. reflexivity. Qed.

Lemma store_step_in_range (ttf : list (option string))
    (m : gmap (option string) cartel) (i : nat) (r : option alt_data)
    (mint : option string) :
  ttf !! i = Some mint →
  store_step ttf m (i, r) = Ok (store_pure m (mint, r)).
Proof.
  intros H. unfold store_step, store_pure. simpl.
  destruct r; [rewrite H|]; reflexivity.
Qed.

(** The second loop of step 3 never meets an index out of range. *)
Lemma store_results_from (ttf : list (option string))
    (results : list (option alt_data)) (k : nat)
    (m : gmap (option string) cartel) :
  length ttf = (k + length results)%nat →
  foldM (store_step ttf) m (zip (seq k (length results)) results) =
  Ok (foldl store_pure m (zip (drop k ttf) results)).
Proof.
  revert k m. induction results as [|r results IH]; intros k m Hlen.
  - simpl. destruct (drop k ttf); reflexivity.
  - simpl in Hlen.
    destruct (lookup_lt_is_Some_2 ttf k ltac:(lia)) as [mint Hmint].
    rewrite (drop_S _ _ _ Hmint). simpl length. simpl seq. simpl zip.
    rewrite foldM_cons, (store_step_in_range _ _ _ _ _ Hmint). simpl.
    apply IH. lia.
Qed.

Lemma zip_fetched (w : world) (miss : list token) :
  zip (map mintAddress miss) (imap (task_result w) (map task_of miss)) =
  fetched w miss.
Proof.
  unfold fetched. generalize (task_result w). intros g.
  revert g. induction miss as [|t miss IH]; intros g; [reflexivity|].
  simpl. f_equal. apply (IH (g ∘ S)).
Qed.

Lemma foldl_snoc_map {A B} (f : A → B) (l : list A) (acc : list B) :
  foldl (λ out x, out ++ [f x]) acc l = acc ++ map f l.
Proof.
  revert acc. induction l as [|x l IH]; intros acc; simpl.
  - rewrite app_nil_r. reflexivity.
  - rewrite IH, <- app_assoc. reflexivity.
Qed.

(** Steps 3 and 4 never fail, and give the view of each token of the page,
    in page order, under the final [cartel_data_map]. *)
Lemma enrich_spec (w : world) (m : gmap (option string) cartel)
    (tokens : list token) :
  enrich w m tokens = Ok (map (format_token (final_map w m tokens)) tokens).
Proof.
  unfold enrich. rewrite plan_spec.
  assert (Hm :
    match map task_of (missing m tokens) with
    | [] => Ok m
    | _ :: _ =>
        gather (completion w) (imap (run_task w) (map task_of (missing m tokens)))
        ≫= λ results,
             store_results (map mintAddress (missing m tokens)) m results
    end = Ok (final_map w m tokens)).
  { unfold final_map.
    destruct (missing m tokens) as [|t miss] eqn:Hmiss; [reflexivity|].
    rewrite <- Hmiss.
    rewrite gather_in_task_order.
    rewrite (mapM_id_imap _ (task_result w)) by apply run_task_Ok.
    simpl. unfold store_results.
    rewrite store_results_from
      by (rewrite length_imap, !length_map; reflexivity).
    rewrite drop_0, zip_fetched. rewrite Hmiss. reflexivity. }
  rewrite Hm. simpl. rewrite foldl_snoc_map. reflexivity.
Qed.

(** ** The final [cartel_data_map] *)

Lemma lookup_store_none (pairs : list (option string * option alt_data))
    (m : gmap (option string) cartel) (k : option string) :
  (∀ kr, kr ∈ pairs → kr.1 = k → kr.2 = None) →
  foldl store_pure m pairs !! k = m !! k.
Proof.
  revert m. induction pairs as [|[k' r] pairs IH]; intros m H; [reflexivity|].
  simpl. rewrite IH.
  - unfold store_pure. simpl. destruct r as [res|]; [|reflexivity].
    apply lookup_insert_ne. intros ->.
    specialize (H (k, Some res)). simpl in H.
    discriminate H; [apply elem_of_cons; left|]; reflexivity.
  - intros kr Hin. apply H. apply elem_of_cons. right. exact Hin.
Qed.


Lemma elem_of_missing (m : gmap (option string) cartel) (tokens : list token)
    (t : token) :
  t ∈ missing m tokens ↔ m !! mintAddress t = None ∧ t ∈ tokens.
Proof. unfold missing. rewrite list_elem_of_filter. reflexivity. Qed.

Lemma elem_of_fetched (w : world) (miss : list token)
    (kr : option string * option alt_data) :
  kr ∈ fetched w miss →
  ∃ j t, miss !! j = Some t ∧ kr = (mintAddress t, task_result w j (task_of t)).
Proof.
  unfold fetched. intros H. apply elem_of_lookup_imap_1 in H.
  destruct H as (j & t & -> & Hj). eauto.
Qed.

(** Cache precedence: the entry of a mint that the cache knows is still the
    cache's entry when the views are made. *)
Lemma final_map_cached (w : world) (m : gmap (option string) cartel)
    (tokens : list token) (k : option string) (rec : cartel) :
  m !! k = Some rec → final_map w m tokens !! k = Some rec.
Proof.
  intros Hk. unfold final_map. rewrite lookup_store_none; [exact Hk|].
  intros kr Hin E. apply elem_of_fetched in Hin.
  destruct Hin as (j & t & Hj & ->). simpl in E.
  apply list_elem_of_lookup_2, elem_of_missing in Hj.
  destruct Hj as [Hnone _]. rewrite E, Hk in Hnone. discriminate.
Qed.

(** A mint for which no child brought a valuation keeps the cache's entry. *)
Lemma final_map_nothing_fetched (w : world) (m : gmap (option string) cartel)
    (tokens : list token) (k : option string) :
  (∀ j t, missing m tokens !! j = Some t → mintAddress t = k →
          task_result w j (task_of t) = None) →
  final_map w m tokens !! k = m !! k.
Proof.
  intros H. unfold final_map. apply lookup_store_none.
  intros kr Hin E. apply elem_of_fetched in Hin.
  destruct Hin as (j & t & Hj & ->). simpl in *. eapply H; eauto.
Qed.


(** ** The whole request *)

Lemma main_try_spec (w : world) (a : string) (off lim : Z) (tokens : list token) :
  inventory w a lim off = Ok tokens →
  main_try w a off lim =
  Ok {| r_wallet := a;
        r_tokens :=
          map (format_token
                 (final_map w (cache_lookup w (token_mints_of tokens)) tokens))
            tokens;
        r_count := Z.of_nat (length tokens);
        r_offset := off;
        r_limit := lim |}.
Proof.
  intros Hinv. unfold main_try. rewrite Hinv. simpl.
  rewrite enrich_spec. simpl. rewrite length_map. reflexivity.
Qed.

Lemma main_spec (w : world) (req : request) (a : string) (tokens : list token) :
  wallet req = Some a → a ≠ "" →
  inventory w a (limit req) (offset req) = Ok tokens →
  main w req =
  {| status := 200;
     content := Json
       {| r_wallet := a;
          r_tokens :=
            map (format_token
                   (final_map w (cache_lookup w (token_mints_of tokens)) tokens))
              tokens;
          r_count := Z.of_nat (length tokens);
          r_offset := offset req;
          r_limit := limit req |} |}.
Proof.
  intros Hw Ha Hinv. unfold main. rewrite Hw.
  destruct a as [|c a]; [congruence|].
  rewrite (main_try_spec _ _ _ _ _ Hinv). reflexivity.
Qed.

(** ** The statements about the orchestrator *)

Lemma format_with_empty_unavailable (t : token) :
  unavailable (format_with cartel_empty t).
Proof. repeat split. Qed.

Lemma task_of_without_attributes (t : token) :
  has_grading_attributes t = false → task_of t = Sleep.
Proof. unfold has_grading_attributes, task_of. intros ->. reflexivity. Qed.

Lemma lookup_views (m : gmap (option string) cartel) (tokens : list token)
    (i : nat) (t : token) :
  tokens !! i = Some t →
  map (format_token m) tokens !! i =
  Some (format_with (default cartel_empty (m !! mintAddress t)) t).
Proof.
  intros H. change (map (format_token m) tokens) with (format_token m <$> tokens).
  rewrite list_lookup_fmap, H. reflexivity.
Qed.

Lemma range_text_not_empty (a b : string) :
  String.eqb (a ++ " - " ++ b)%string "" = false.
Proof. destruct a; reflexivity. Qed.

Lemma lookup_rows (rows : list db_row) (m : gmap (option string) cartel)
    (k : option string) :
  foldl (λ m row, <[Some (row_token_mint row) := of_row row]> m) m rows !! k =
  match last (filter (λ row, Some (row_token_mint row) = k) rows) with
  | Some row => Some (of_row row)
  | None => m !! k
  end.
Proof.
  revert m. induction rows as [|row rows IH] using rev_ind; intros m.
  - reflexivity.
  - rewrite foldl_snoc, filter_app, filter_cons, filter_nil.
    destruct (decide (Some (row_token_mint row) = k)) as [<-|Hne].
    + rewrite last_snoc. apply lookup_insert_eq.
    + rewrite app_nil_r, lookup_insert_ne by exact Hne. apply IH.
Qed.



(** C6, as the code has it. A token of the page that is absent from the
    cache and lacks its certificate id, its grade or its grading company is
    still in the answer, at its position. Its valuation fields are all
    unavailable when no token of the page with the same identifier has the
    three attributes: [cartel_data_map] is keyed by identifier, and tokens
    without identifier share the key [None]. *)
Theorem token_without_attributes_is_kept
    (w : world) (req : request) (a : string) (tokens : list token)
    (i : nat) (t : token) :
  wallet req = Some a → a ≠ "" →
  inventory w a (limit req) (offset req) = Ok tokens →
  tokens !! i = Some t →
  cache_lookup w (token_mints_of tokens) !! mintAddress t = None →
  has_grading_attributes t = false →
  (∀ t', t' ∈ tokens → mintAddress t' = mintAddress t →
         has_grading_attributes t' = false) →
  ∃ r o, main w req = {| status := 200; content := Json r |}
         ∧ length (r_tokens r) = length tokens
         ∧ r_tokens r !! i = Some o
         ∧ out_mint o = mintAddress t
         ∧ o = format_with cartel_empty t
         ∧ unavailable o.
Proof.
  intros Hw Ha Hinv Hi Hc Hattr Hothers.
  eexists. exists (format_with cartel_empty t).
  split; [apply (main_spec w req a tokens Hw Ha Hinv)|]. simpl.
  split; [apply length_map|].
  split; [|split; [reflexivity|split; [reflexivity|]]].
  - rewrite (lookup_views _ _ _ _ Hi).
    rewrite final_map_nothing_fetched, Hc; [reflexivity|].
    intros j t' Hj E.
    apply list_elem_of_lookup_2, elem_of_missing in Hj. destruct Hj as [_ Hj].
    rewrite (task_of_without_attributes t' (Hothers t' Hj E)).
    reflexivity.
  - apply format_with_empty_unavailable.
Qed.

(** C7. The views are those of the tokens of the page, in the order of the
    page; the answer echoes [offset] and [limit], and its [count] is the
    number of views; and the answer is the same for every order in which
    the sub-tasks complete. *)
Theorem page_order_and_pagination
    (w : world) (req : request) (a : string) (tokens : list token) :
  wallet req = Some a → a ≠ "" →
  inventory w a (limit req) (offset req) = Ok tokens →
  ∃ r, main w req = {| status := 200; content := Json r |}
       ∧ map out_mint (r_tokens r) = map mintAddress tokens
       ∧ (∀ i t, tokens !! i = Some t →
                 ∃ c_data, r_tokens r !! i = Some (format_with c_data t))
       ∧ r_count r = Z.of_nat (length (r_tokens r))
       ∧ r_offset r = offset req
       ∧ r_limit r = limit req
       ∧ ∀ rank, main (with_completion rank w) req = main w req.
Proof.
  intros Hw Ha Hinv.
  eexists. split; [apply (main_spec w req a tokens Hw Ha Hinv)|]. simpl.
  split; [|split; [|split; [|split; [|split]]]].
  - rewrite map_map. reflexivity.
  - intros i t Hi. eexists. apply (lookup_views _ _ _ _ Hi).
  - rewrite length_map. reflexivity.
  - reflexivity.
  - reflexivity.
  - intros rank.
    rewrite (main_spec w req a tokens Hw Ha Hinv).
    rewrite (main_spec (with_completion rank w) req a tokens Hw Ha Hinv).
    reflexivity.
Qed.

Lemma missing_empty (tokens : list token) : missing ∅ tokens = tokens.
Proof.
  unfold missing. induction tokens as [|t tokens IH]; [reflexivity|].
  rewrite filter_cons_True by apply lookup_empty. rewrite IH. reflexivity.
Qed.

(** C8. The cache lookup of an empty set of identifiers is the empty
    mapping; so is the lookup when a setting of the store is missing, and
    when the store cannot be reached. With an empty mapping every token of
    the page goes to the external fetch; and whatever the store does, the
    request succeeds as soon as the inventory answers. *)
Theorem cache_failure_degrades_to_empty (w : world) :
  cache_lookup w [] = ∅
  ∧ (∀ mints, store_configured w = false → cache_lookup w mints = ∅)
  ∧ (∀ mints, listings w mints = Raise → cache_lookup w mints = ∅)
  ∧ (∀ tokens, plan ∅ tokens = (map mintAddress tokens, map task_of tokens))
  ∧ ∀ req a tokens,
      wallet req = Some a → a ≠ "" →
      inventory w a (limit req) (offset req) = Ok tokens →
      status (main w req) = 200
      ∧ (cache_lookup w (token_mints_of tokens) = ∅ →
         main w req =
         {| status := 200;
            content := Json
              {| r_wallet := a;
                 r_tokens := map (format_token (final_map w ∅ tokens)) tokens;
                 r_count := Z.of_nat (length tokens);
                 r_offset := offset req;
                 r_limit := limit req |} |}).
Proof.
  split; [reflexivity|]. split; [|split; [|split]].
  - intros mints Hc. unfold cache_lookup.
    rewrite Hc, andb_false_r. reflexivity.
  - intros mints Hl. unfold cache_lookup. rewrite Hl.
    destruct (_ && _); reflexivity.
  - intros tokens. rewrite plan_spec, missing_empty. reflexivity.
  - intros req a tokens Hw Ha Hinv.
    rewrite (main_spec w req a tokens Hw Ha Hinv). split; [reflexivity|].
    intros ->. reflexivity.
Qed.


Lemma get_alt_data_async_no_credentials (post : client) (now : Z)
    (cert_id grade company : pyval) :
  env_unset AUTH_TOKEN = true ∨ env_unset COOKIE = true →
  get_alt_data_async post now cert_id grade company = Ok None.
Proof.
  intros H. unfold get_alt_data_async.
  replace (env_unset AUTH_TOKEN || env_unset COOKIE) with true; [reflexivity|].
  symmetry. apply orb_true_iff. exact H.
Qed.

(** C10. When the authorization token or the cookie is not set, the
    resolver returns nothing whatever its arguments; and then every token
    of the page that is absent from the cache is shown with every valuation
    field unavailable. *)
Theorem no_credentials_no_valuation :
  env_unset AUTH_TOKEN = true ∨ env_unset COOKIE = true →
  (∀ post now cert_id grade company,
     get_alt_data_async post now cert_id grade company = Ok None)
  ∧ ∀ w req a tokens i t,
      wallet req = Some a → a ≠ "" →
      inventory w a (limit req) (offset req) = Ok tokens →
      tokens !! i = Some t →
      cache_lookup w (token_mints_of tokens) !! mintAddress t = None →
      ∃ r o, main w req = {| status := 200; content := Json r |}
             ∧ r_tokens r !! i = Some o
             ∧ o = format_with cartel_empty t
             ∧ unavailable o.
Proof.
  intros Hcred. split.
  - intros. apply get_alt_data_async_no_credentials. exact Hcred.
  - intros w req a tokens i t Hw Ha Hinv Hi Hc.
    eexists. exists (format_with cartel_empty t).
    split; [apply (main_spec w req a tokens Hw Ha Hinv)|]. simpl.
    split; [|split; [reflexivity|apply format_with_empty_unavailable]].
    rewrite (lookup_views _ _ _ _ Hi).
    rewrite final_map_nothing_fetched, Hc; [reflexivity|].
    intros j t' _ _. unfold task_result.
    destruct (task_of t') as [c g k|]; simpl; [|reflexivity].
    rewrite get_alt_data_async_no_credentials by exact Hcred. reflexivity.
Qed.

(** ** Further properties of the resolver *)

(** X1. The identity lookup returns the identifier found under
    [data.cert.asset.id] of an answer of status 200; and the resolver takes
    an identifier that is there but falsy (null, empty, zero) as not found. *)
Theorem identity_lookup_returns_id
    (post : client) (now : Z) (cert_id grade company : pyval)
    (r : response) (body id : pyval) :
  post GRAPHQL_URL (cert_payload cert_id) = Ok r →
  status_code r = 200 →
  json r = Ok body →
  body_asset_id body = Some id →
  get_asset_id_async post cert_id = Ok id
  ∧ (truthy id = false →
     get_alt_data_async post now cert_id grade company = Ok None).
Proof.
  intros Hpost Hstatus Hjson Hid.
  assert (Hasync : get_asset_id_async post cert_id = Ok id).
  { unfold get_asset_id_async, get_asset_id_try. cbv zeta.
    rewrite Hpost. simpl. rewrite Hstatus. simpl. rewrite Hjson. simpl.
    destruct body as [| | | | |l|b]; try discriminate Hid. simpl in Hid |- *.
    destruct (assoc_get "data" b) as [[| | | | |l|d]|]; try discriminate Hid.
    simpl in Hid |- *.
    destruct (assoc_get "cert" d) as [[| | | | |l|c]|]; try discriminate Hid.
    simpl in Hid |- *.
    destruct (assoc_get "asset" c) as [[| | | | |l|a]|]; try discriminate Hid.
    simpl. destruct a as [|kv a]; [discriminate Hid|].
    simpl. simpl in Hid. rewrite Hid. reflexivity. }
  split; [exact Hasync|].
  intros Hfalsy. unfold get_alt_data_async.
  destruct (env_unset AUTH_TOKEN || env_unset COOKIE); [reflexivity|].
  rewrite Hasync. simpl. rewrite Hfalsy. reflexivity.
Qed.

Lemma py_or_truthy_or_default (a b : pyval) :
  truthy (py_or a b) = true ∨ py_or a b = b.
Proof. unfold py_or. destruct (truthy a) eqn:E; [left; exact E|right; reflexivity]. Qed.

Lemma aggregate_price_numeric_supply (transactions supply : pyval) (now : Z)
    (avg : float) :
  aggregate_price transactions supply now = Ok avg → ∃ s, num_of supply = Some s.
Proof.
  unfold aggregate_price, py_gt. destruct (num_of supply) as [s|]; [eauto|discriminate].
Qed.

(** What [get_alt_data_async] went through when it returns a record. *)
Lemma get_alt_data_async_Some (post : client) (now : Z)
    (cert_id grade company : pyval) (r : alt_data) :
  get_alt_data_async post now cert_id grade company = Ok (Some r) →
  env_unset AUTH_TOKEN = false ∧ env_unset COOKIE = false
  ∧ ∃ asset_id, get_asset_id_async post cert_id = Ok asset_id
                ∧ truthy asset_id = true
                ∧ get_alt_data_try post now asset_id grade company = Ok (Some r).
Proof.
  unfold get_alt_data_async. intros H.
  destruct (env_unset AUTH_TOKEN) eqn:Ha; [discriminate H|].
  destruct (env_unset COOKIE) eqn:Hc; [discriminate H|]. simpl in H.
  exc_step H asset_id Hid.
  destruct (truthy asset_id) eqn:Ht; [|discriminate H]. simpl in H.
  split; [reflexivity|]. split; [reflexivity|].
  exists asset_id. split; [exact Hid|]. split; [exact Ht|].
  destruct (get_alt_data_try post now asset_id grade company) as [o|];
    simpl in H; [|discriminate H]. exact H.
Qed.

(** X2. A record returned by the resolver was obtained with both
    credentials set, for the identifier that the identity lookup gave, from
    two answers of status 200 to the queries that carry the grade written
    with one decimal; its supply is what the scan of [cardPops] found, and
    its average price what [aggregate_price] computed from the transactions
    of the second answer and that supply. *)
Theorem resolution_provenance
    (post : client) (now : Z) (cert_id grade company : pyval) (r : alt_data) :
  get_alt_data_async post now cert_id grade company = Ok (Some r) →
  env_unset AUTH_TOKEN = false ∧ env_unset COOKIE = false
  ∧ get_asset_id_async post cert_id = Ok (res_alt_asset_id r)
  ∧ ∃ g dr tr dj tj pops transactions avg,
      format_grade grade = Ok g
      ∧ post GRAPHQL_URL (details_payload (res_alt_asset_id r) g company) = Ok dr
      ∧ post GRAPHQL_URL (trans_payload (res_alt_asset_id r) g company) = Ok tr
      ∧ status_code dr = 200 ∧ status_code tr = 200
      ∧ json dr = Ok dj ∧ json tr = Ok tj
      ∧ card_pops_of dj = Ok pops
      ∧ transactions_of tj = Ok transactions
      ∧ scan_pops pops grade company = Ok (res_supply r)
      ∧ aggregate_price transactions (res_supply r) now = Ok avg
      ∧ res_avg_price r = PFloat avg.
Proof.
  intros H. apply get_alt_data_async_Some in H.
  destruct H as (Ha & Hc & asset_id & Hid & _ & Htry).
  apply resolver_result_fields in Htry.
  destruct Htry as (g & dr & tr & dj & tj & pops & txs & avg & Hg & Hdr & Htr
                    & Hsd & Hst & Hdj & Htj & Hpops & Htxs & Hscan & Havg
                    & Hprice & Hasset).
  rewrite Hasset. split; [exact Ha|]. split; [exact Hc|]. split; [exact Hid|].
  exists g, dr, tr, dj, tj, pops, txs, avg. repeat split; assumption.
Qed.

(** The numeric fields of a record of the [try] body. *)
Lemma get_alt_data_try_defaults (post : client) (now : Z)
    (asset_id grade company : pyval) (r : alt_data) :
  get_alt_data_try post now asset_id grade company = Ok (Some r) →
  Forall (λ x, truthy x = true ∨ x = PFloat 0)
    [res_alt_value r; res_lower_bound r; res_upper_bound r; res_confidence r].
Proof.
  unfold get_alt_data_try. intros H.
  exc_step H g Hg. exc_step H g' Hg'.
  exc_step H dr Hdr. exc_step H tr Htr.
  destruct (negb (status_code dr =? 200) || negb (status_code tr =? 200));
    [discriminate H|].
  exc_step H dj Hdj. exc_step H dd Hdd. exc_step H da Hda.
  exc_step H tj Htj. exc_step H td Htd. exc_step H ta Hta.
  exc_step H transactions Htx.
  exc_step H avi Havi. exc_step H cd Hcd.
  exc_step H card_pops Hcp. exc_step H pops Hpops.
  exc_step H supply Hsupply. exc_step H avg Havg.
  exc_step H cv Hcv. exc_step H lo Hlo. exc_step H hi Hhi.
  exc_step H metric Hmetric.
  injection H as <-. simpl.
  rewrite !Forall_cons. repeat split;
    first [apply py_or_truthy_or_default | apply Forall_nil_2].
Qed.

(** X3. A record returned by the resolver is well formed: its asset
    identifier is truthy, its supply is a number, its average price is a
    float, and its valuation, bounds and confidence are never null: each is
    the truthy value of the answer, or [0.0]. *)
Theorem resolver_record_well_formed
    (post : client) (now : Z) (cert_id grade company : pyval) (r : alt_data) :
  get_alt_data_async post now cert_id grade company = Ok (Some r) →
  truthy (res_alt_asset_id r) = true
  ∧ (∃ s, num_of (res_supply r) = Some s)
  ∧ (∃ avg, res_avg_price r = PFloat avg)
  ∧ Forall (λ x, truthy x = true ∨ x = PFloat 0)
      [res_alt_value r; res_lower_bound r; res_upper_bound r; res_confidence r].
Proof.
  intros H. apply get_alt_data_async_Some in H.
  destruct H as (_ & _ & asset_id & _ & Htruthy & Htry).
  pose proof (get_alt_data_try_defaults _ _ _ _ _ _ Htry) as Hdef.
  apply resolver_result_fields in Htry.
  destruct Htry as (g & dr & tr & dj & tj & pops & txs & avg & _ & _ & _
                    & _ & _ & _ & _ & _ & _ & _ & Havg & Hprice & Hasset).
  rewrite Hasset. split; [exact Htruthy|].
  split; [exact (aggregate_price_numeric_supply _ _ _ _ Havg)|].
  split; [eauto|exact Hdef].
Qed.

(** ** Further properties of the orchestrator *)

(** X4. The status of the answer, for a request whose [offset] and [limit]
    are integers: it is 400 exactly when the wallet address is missing or
    empty; with an address, it is 500 when the inventory call fails, and
    200 when it answers with a page of well formed tokens: then nothing
    that the store or the valuation service does can make the request
    fail. *)
Theorem main_status (w : world) (req : request) :
  (status (main w req) = 400 ↔ wallet req = None ∨ wallet req = Some "")
  ∧ (∀ a, wallet req = Some a → a ≠ "" →
          inventory w a (limit req) (offset req) = Raise →
          status (main w req) = 500)
  ∧ (∀ a tokens, wallet req = Some a → a ≠ "" →
                 inventory w a (limit req) (offset req) = Ok tokens →
                 status (main w req) = 200).
Proof.
  assert (H500 : ∀ a, wallet req = Some a → a ≠ "" →
                      inventory w a (limit req) (offset req) = Raise →
                      status (main w req) = 500).
  { intros a Hw Ha Hinv. unfold main, main_try. rewrite Hw.
    destruct a as [|c a]; [congruence|]. rewrite Hinv. reflexivity. }
  assert (H200 : ∀ a tokens, wallet req = Some a → a ≠ "" →
                   inventory w a (limit req) (offset req) = Ok tokens →
                   status (main w req) = 200).
  { intros a tokens Hw Ha Hinv. rewrite (main_spec w req a tokens Hw Ha Hinv).
    reflexivity. }
  split; [|split; [exact H500|exact H200]].
  destruct (wallet req) as [a|] eqn:Hw.
  - destruct (decide (a = "")) as [->|Ha].
    + unfold main. rewrite Hw. simpl.
      split; [intros _; right; reflexivity|reflexivity].
    + split; [|intros [[=]|[= ->]]; congruence].
      destruct (inventory w a (limit req) (offset req)) as [tokens|] eqn:Hinv.
      * rewrite (H200 a tokens eq_refl Ha Hinv). discriminate.
      * rewrite (H500 a eq_refl Ha Hinv). discriminate.
  - unfold main. rewrite Hw. simpl.
    split; [intros _; left; reflexivity|reflexivity].
Qed.

(** X5. An empty page gives an empty answer with [count] 0, whatever the
    store and the valuation service would say. *)
Theorem empty_page_answer (w : world) (req : request) (a : string) :
  wallet req = Some a → a ≠ "" →
  inventory w a (limit req) (offset req) = Ok [] →
  main w req =
  {| status := 200;
     content := Json {| r_wallet := a; r_tokens := []; r_count := 0;
                        r_offset := offset req; r_limit := limit req |} |}.
Proof.
  intros Hw Ha Hinv. rewrite (main_spec w req a [] Hw Ha Hinv). reflexivity.
Qed.

(** X6. When the store answers, the cache maps a mint to the entry made of
    the last row returned for it, and has no entry for a mint without row;
    no entry is ever filed under a missing mint. *)
Theorem cache_lookup_last_row_wins
    (w : world) (mints : list string) (rows : list db_row) (k : string) :
  mints ≠ [] →
  store_configured w = true →
  listings w mints = Ok rows →
  cache_lookup w mints !! Some k
  = of_row <$> last (filter (λ row, row_token_mint row = k) rows)
  ∧ cache_lookup w mints !! None = None.
Proof.
  intros Hm Hc Hl. unfold cache_lookup. rewrite Hc, Hl.
  destruct mints as [|mint mints]; [congruence|]. simpl.
  rewrite !lookup_rows. split.
  - replace (filter (λ row, Some (row_token_mint row) = Some k) rows)
      with (filter (λ row, row_token_mint row = k) rows).
    + destruct (last _); reflexivity.
    + apply list_filter_iff. intros row. split; [intros ->; reflexivity|].
      intros [= E]. exact E.
  - rewrite filter_none by (intros row _; discriminate). reflexivity.
Qed.

Lemma lookup_store_source (pairs : list (option string * option alt_data))
    (m : gmap (option string) cartel) (k : option string) :
  foldl store_pure m pairs !! k = m !! k
  ∨ ∃ res, (k, Some res) ∈ pairs
           ∧ foldl store_pure m pairs !! k = Some (of_res res).
Proof.
  induction pairs as [|[k' r] pairs IH] using rev_ind; [left; reflexivity|].
  rewrite foldl_snoc. unfold store_pure at 1 3. simpl.
  destruct r as [res|].
  - destruct (decide (k' = k)) as [->|Hne].
    + right. exists res. rewrite lookup_insert_eq. split; [|reflexivity].
      apply elem_of_app. right. apply list_elem_of_singleton. reflexivity.
    + rewrite lookup_insert_ne by exact Hne.
      destruct IH as [IH|(res' & Hin & IH)]; [left; exact IH|].
      right. exists res'. split; [|exact IH].
      apply elem_of_app. left. exact Hin.
  - destruct IH as [IH|(res' & Hin & IH)]; [left; exact IH|].
    right. exists res'. split; [|exact IH].
    apply elem_of_app. left. exact Hin.
Qed.

(** The entry of a mint that the cache does not know: none, or what the
    resolver call of a token of the page with this mint returned. *)
Lemma final_map_uncached (w : world) (m : gmap (option string) cartel)
    (tokens : list token) (k : option string) :
  m !! k = None →
  final_map w m tokens !! k = None
  ∨ ∃ j t res, t ∈ tokens ∧ mintAddress t = k
               ∧ run_task w j (task_of t) = Ok (Some res)
               ∧ final_map w m tokens !! k = Some (of_res res).
Proof.
  intros Hk. unfold final_map.
  destruct (lookup_store_source (fetched w (missing m tokens)) m k)
    as [H|(res & Hin & H)].
  - left. rewrite H. exact Hk.
  - right. apply elem_of_fetched in Hin.
    destruct Hin as (j & t & Hj & [= Hmint Hres]).
    exists j, t, res.
    apply list_elem_of_lookup_2, elem_of_missing in Hj. destruct Hj as [_ Hj].
    split; [exact Hj|]. split; [symmetry; exact Hmint|].
    split; [|exact H]. rewrite run_task_Ok, <- Hres. reflexivity.
Qed.

Lemma run_task_asset_truthy (w : world) (j : nat) (t : task) (res : alt_data) :
  run_task w j t = Ok (Some res) → truthy (res_alt_asset_id res) = true.
Proof.
  destruct t as [c g k|]; simpl; [|discriminate].
  intros H. apply get_alt_data_async_Some in H.
  destruct H as (_ & _ & asset_id & _ & Htruthy & Htry).
  apply resolver_result_fields in Htry.
  destruct Htry as (? & ? & ? & ? & ? & ? & ? & ? & _ & _ & _
                    & _ & _ & _ & _ & _ & _ & _ & _ & _ & Hasset).
  rewrite Hasset. exact Htruthy.
Qed.

(** X7. A token that the cache does not know is shown with the display
    fields of the inventory: its own name, image, grade and grade number. A
    fetched valuation never changes them. *)
Theorem uncached_token_keeps_inventory_display
    (w : world) (req : request) (a : string) (tokens : list token)
    (i : nat) (t : token) :
  wallet req = Some a → a ≠ "" →
  inventory w a (limit req) (offset req) = Ok tokens →
  tokens !! i = Some t →
  cache_lookup w (token_mints_of tokens) !! mintAddress t = None →
  ∃ r o, main w req = {| status := 200; content := Json r |}
         ∧ r_tokens r !! i = Some o
         ∧ out_mint o = mintAddress t
         ∧ out_name o = name t
         ∧ out_img o = image t
         ∧ out_grade o = get_attr (attributes t) "The Grade"
         ∧ out_grading_number o = get_attr (attributes t) "GradeNum".
Proof.
  intros Hw Ha Hinv Hi Hc.
  eexists. eexists. split; [apply (main_spec w req a tokens Hw Ha Hinv)|]. simpl.
  split; [apply (lookup_views _ _ _ _ Hi)|].
  destruct (final_map_uncached w _ tokens _ Hc) as [->|(j & t' & res & _ & _ & _ & ->)];
    repeat split.
Qed.

(** X8. A token that the cache does not know is shown either with every
    valuation field unavailable, or with the record that the resolver
    returned for a token of the page carrying the same mint; in that case
    its link and its range are there: the link leads to the asset of the
    record, and the range reads "lower - upper". *)
Theorem uncached_token_valuation_source
    (w : world) (req : request) (a : string) (tokens : list token)
    (i : nat) (t : token) :
  wallet req = Some a → a ≠ "" →
  inventory w a (limit req) (offset req) = Ok tokens →
  tokens !! i = Some t →
  cache_lookup w (token_mints_of tokens) !! mintAddress t = None →
  ∃ r o, main w req = {| status := 200; content := Json r |}
         ∧ r_tokens r !! i = Some o
         ∧ ((o = format_with cartel_empty t ∧ unavailable o)
            ∨ ∃ j t' res,
                t' ∈ tokens ∧ mintAddress t' = mintAddress t
                ∧ run_task w j (task_of t') = Ok (Some res)
                ∧ o = format_with (of_res res) t
                ∧ out_supply o = res_supply res
                ∧ out_alt_link o
                  = PStr ("https://alt.xyz/assets/" ++ py_str (res_alt_asset_id res))
                ∧ out_alt_range o
                  = PStr (py_str (res_lower_bound res) ++ " - "
                          ++ py_str (res_upper_bound res))).
Proof.
  intros Hw Ha Hinv Hi Hc.
  eexists. eexists. split; [apply (main_spec w req a tokens Hw Ha Hinv)|]. simpl.
  split; [apply (lookup_views _ _ _ _ Hi)|].
  destruct (final_map_uncached w _ tokens _ Hc)
    as [->|(j & t' & res & Hin & Hmint & Hrun & ->)].
  - left. split; [reflexivity|apply format_with_empty_unavailable].
  - right. exists j, t', res. simpl.
    split; [exact Hin|]. split; [exact Hmint|]. split; [exact Hrun|].
    split; [reflexivity|]. split; [reflexivity|].
    unfold format_with, py_or. simpl.
    rewrite (run_task_asset_truthy _ _ _ _ Hrun). simpl.
    rewrite range_text_not_empty. simpl. split; reflexivity.
Qed.

(** X9. [cartel_data_map] is keyed by mint: two tokens of the page with the
    same mint are shown with the same supply, valuation, range, average and
    link, whichever of them the record was stored for. *)
Theorem same_mint_same_valuation
    (w : world) (req : request) (a : string) (tokens : list token)
    (i j : nat) (ti tj : token) :
  wallet req = Some a → a ≠ "" →
  inventory w a (limit req) (offset req) = Ok tokens →
  tokens !! i = Some ti → tokens !! j = Some tj →
  mintAddress ti = mintAddress tj →
  ∃ r oi oj, main w req = {| status := 200; content := Json r |}
             ∧ r_tokens r !! i = Some oi ∧ r_tokens r !! j = Some oj
             ∧ out_supply oi = out_supply oj
             ∧ out_alt_value oi = out_alt_value oj
             ∧ out_alt_range oi = out_alt_range oj
             ∧ out_cartel_avg oi = out_cartel_avg oj
             ∧ out_alt_link oi = out_alt_link oj.
Proof.
  intros Hw Ha Hinv Hi Hj Hmint.
  eexists. eexists. eexists.
  split; [apply (main_spec w req a tokens Hw Ha Hinv)|]. simpl.
  split; [apply (lookup_views _ _ _ _ Hi)|].
  split; [apply (lookup_views _ _ _ _ Hj)|].
  rewrite Hmint. repeat split.
Qed.

(** ** Further properties of the price and of the grade text *)

(** X10. With a supply of at most 3000 only the first four transactions are
    read, and of them only the price: what follows them, well formed or not,
    and the clock change nothing. *)
Theorem low_supply_reads_only_first_four
    (txs : list pyval) (supply now now' : Z) :
  supply ≤ 3000 →
  aggregate_price (PList txs) (PInt supply) now
  = aggregate_price (PList (take 4 txs)) (PInt supply) now'.
Proof.
  intros Hs. unfold aggregate_price. rewrite py_gt_int.
  replace (3000 <? supply) with false by (symmetry; apply Z.ltb_ge; lia).
  simpl. rewrite take_take. reflexivity.
Qed.

Lemma foldM_raise {A B} (f : A → B → exc A) (l : list B) (x : B) (a : A) :
  x ∈ l → (∀ a', f a' x = Raise) → foldM f a l = Raise.
Proof.
  intros Hin Hx. revert a. induction l as [|y l IH]; intros a.
  - apply elem_of_nil in Hin. destruct Hin.
  - rewrite foldM_cons. apply elem_of_cons in Hin.
    destruct (f a y) as [a'|] eqn:Hy; [|reflexivity]. simpl.
    destruct Hin as [->|Hin]; [rewrite Hx in Hy; discriminate|].
    apply IH. exact Hin.
Qed.

(** X11. With a supply above 3000 every transaction is dated before the
    window is applied: one transaction without a readable date, wherever it
    stands, makes the computation raise, whatever the others are. *)
Theorem liquid_unreadable_date_raises
    (txs : list pyval) (supply now : Z) (tx : pyval) :
  3000 < supply →
  tx ∈ txs →
  tx_date tx = Raise →
  aggregate_price (PList txs) (PInt supply) now = Raise.
Proof.
  intros Hs Hin Hd. unfold aggregate_price. rewrite py_gt_int.
  replace (3000 <? supply) with true by (symmetry; apply Z.ltb_lt; exact Hs).
  simpl. rewrite (foldM_raise _ txs tx); [reflexivity|exact Hin|].
  intros acc. unfold daily_step. rewrite Hd. reflexivity.
Qed.

Lemma daily_step_windowed (now : Z) (acc : list (Z * list float))
    (tx : pyval) (dp : Z * float) :
  tx_date tx = Ok dp.1 →
  (in_window now dp.1 → tx_price tx = Ok dp.2) →
  daily_step (now - 15 * us_per_day) acc tx =
  Ok (if decide (in_window now dp.1)
      then dd_append (strftime_day dp.1) dp.2 acc else acc).
Proof.
  intros Hd Hp. unfold daily_step. rewrite Hd. simpl. unfold in_window in *.
  destruct (Z.leb_spec (now - 15 * us_per_day) dp.1) as [Hle|Hlt];
    destruct (decide (now - 15 * us_per_day ≤ dp.1)) as [Hw|Hw]; try lia.
  - rewrite (Hp Hw). reflexivity.
  - reflexivity.
Qed.

(** The liquid branch on transactions that carry a date, and a price when
    they are in the window. *)
Lemma aggregate_price_liquid (txs : list pyval) (supply now : Z)
    (dated : list (Z * float)) :
  3000 < supply →
  Forall2 (λ tx dp, tx_date tx = Ok dp.1
                    ∧ (in_window now dp.1 → tx_price tx = Ok dp.2)) txs dated →
  aggregate_price (PList txs) (PInt supply) now = Ok (liquid_price_spec now dated).
Proof.
  intros Hs Hd. unfold aggregate_price. rewrite py_gt_int.
  replace (3000 <? supply) with true by (symmetry; apply Z.ltb_lt; exact Hs).
  simpl.
  assert (Hfold : ∀ acc,
    foldM (daily_step (now - 15 * us_per_day)) acc txs =
    Ok (foldl (λ acc tx, dd_append (strftime_day tx.1) tx.2 acc) acc
          (filter (λ tx, in_window now tx.1) dated))).
  { induction Hd as [|tx dp txs dated [Hdate Hprice] _ IH]; intros acc;
      [reflexivity|].
    rewrite foldM_cons, (daily_step_windowed _ _ _ _ Hdate Hprice). simpl.
    rewrite filter_cons. destruct (decide (in_window now dp.1)); apply IH. }
  rewrite Hfold. simpl.
  rewrite foldl_dd_append_groups. unfold liquid_price_spec.
  apply (mean_of_daily_means (filter (λ tx, in_window now tx.1) dated)).
Qed.

(** X12. With a supply above 3000 the price of a transaction outside the
    window is never read. The window is the one of the code: a transaction
    is outside when the midnight of its day is earlier than fifteen days
    before now. Such a transaction may lack its price, or carry one that is
    no number, and the result is the same mean of daily means of the
    transactions of the window, in Python's float arithmetic. *)
Theorem liquid_reads_no_price_outside_window
    (txs : list pyval) (supply now : Z) (dated : list (Z * float)) :
  3000 < supply →
  Forall2 (λ tx dp, tx_date tx = Ok dp.1
                    ∧ (in_window now dp.1 → tx_price tx = Ok dp.2)) txs dated →
  aggregate_price (PList txs) (PInt supply) now
  = Ok (liquid_price_spec now (filter (λ tx, in_window now tx.1) dated)).
Proof.
  intros Hs Hd. rewrite (aggregate_price_liquid txs supply now dated Hs Hd).
  unfold liquid_price_spec. rewrite filter_idemp. reflexivity.
Qed.

Lemma elem_of_grades (n : nat) (z : Z) :
  0 ≤ z < Z.of_nat n → z ∈ map Z.of_nat (seq 0 n).
Proof.
  intros Hz. apply list_elem_of_In, in_map_iff. exists (Z.to_nat z).
  split; [lia|]. apply in_seq. lia.
Qed.

(** The grades up to 100, in whole numbers and in tenths, one by one. *)
Lemma grade_texts_checked :
  forallb (λ z, bool_decide (format_int_1f z = Some (pretty z ++ ".0")%string))
    (map Z.of_nat (seq 0 101))
  && forallb (λ k, match format_tenths_1f k with
                   | Ok t => String.eqb t (pretty (k / 10) ++ "." ++ pretty (k mod 10))
                   | Raise => false
                   end)
       (map Z.of_nat (seq 0 1001))
  = true.
Proof. vm_compute. reflexivity. Qed.

(** X15. A grade is sent and matched as its text with one decimal. For the
    grades up to 100: the whole grade [z] reads "z.0", and the float
    nearest to [k] tenths reads as the text of [k / 10], a point and the
    digit [k mod 10]. So an entry of [cardPops] of the requested company
    whose grade is that very text gives the supply. *)
Theorem grade_text_round_trip (z k : Z) (company : string) (count : pyval)
    (rest : list pyval) :
  0 ≤ z ≤ 100 → 0 ≤ k ≤ 1000 →
  format_grade (PInt z) = Ok (pretty z ++ ".0")%string
  ∧ (int_truediv k 10 ≫= λ x, format_grade (PFloat x))
    = Ok (pretty (k / 10) ++ "." ++ pretty (k mod 10))%string
  ∧ scan_pops
      (PDict [("gradingCompany", PStr company);
              ("gradeNumber", PStr (pretty z ++ ".0")); ("count", count)] :: rest)
      (PInt z) (PStr company) = Ok count.
Proof.
  intros Hz Hk.
  pose proof grade_texts_checked as Hcheck.
  apply andb_prop in Hcheck. destruct Hcheck as [Hints Htenths].
  rewrite forallb_forall in Hints, Htenths.
  assert (Hint : format_grade (PInt z) = Ok (pretty z ++ ".0")%string).
  { specialize (Hints z (proj1 (list_elem_of_In _ _) (elem_of_grades 101 z ltac:(lia)))).
    apply bool_decide_eq_true in Hints. unfold format_int_1f in Hints.
    unfold format_grade, py_float.
    destruct (float_of_int z) as [x|]; [|discriminate Hints].
    injection Hints as Hx.
    change (Ok (format_1f x) = Ok (pretty z ++ ".0")%string).
    rewrite Hx. reflexivity. }
  split; [exact Hint|]. split.
  - specialize (Htenths k (proj1 (list_elem_of_In _ _) (elem_of_grades 1001 k ltac:(lia)))).
    unfold format_tenths_1f in Htenths. unfold format_grade, py_float.
    destruct (int_truediv k 10) as [x|]; [|discriminate Htenths].
    change (Ok (format_1f x)
            = Ok (pretty (k / 10) ++ "." ++ pretty (k mod 10))%string).
    f_equal. apply String.eqb_eq. exact Htenths.
  - simpl scan_pops. rewrite String.eqb_refl. simpl.
    rewrite Hint. simpl. rewrite String.eqb_refl. reflexivity.
Qed.

(** ** Properties of the listing functions *)

(** What a successful answer of [get-all-deals] went through. *)
Lemma get_all_deals_ok (w : listings_world) (req : deals_request) (d : deals_data) :
  get_all_deals_main w req = {| code := 200; payload := inr d |} →
  fully_configured w = true
  ∧ ∃ page limit fetched,
      param_int (page_param req) 1 = Done page
      ∧ param_int (limit_param req) 10 = Done limit
      ∧ connect w = Done tt
      ∧ count_all w = Done (pg_total (dd_pagination d))
      ∧ pg_page (dd_pagination d) = (if page <? 1 then 1 else page)
      ∧ pg_limit (dd_pagination d) = (if limit <? 1 then 10 else limit)
      ∧ page_count (pg_total (dd_pagination d)) (pg_limit (dd_pagination d))
        = Ok (pg_total_pages (dd_pagination d))
      ∧ select_page w (pg_limit (dd_pagination d))
          ((pg_page (dd_pagination d) - 1) * pg_limit (dd_pagination d))
        = Done fetched
      ∧ close w = Done tt
      ∧ dd_data d = rows_to_dicts fetched.
Proof.
  unfold get_all_deals_main, get_all_deals_try. intros H.
  destruct (fully_configured w); [|discriminate H]. simpl in H.
  split; [reflexivity|].
  destruct (param_int (page_param req) 1) as [page|e] eqn:Hp;
    [|destruct e; discriminate H]. simpl in H.
  destruct (param_int (limit_param req) 10) as [limit|e] eqn:Hl;
    [|destruct e; discriminate H]. simpl in H.
  destruct (connect w) as [[]|e] eqn:Hc; [|destruct e; discriminate H]. simpl in H.
  destruct (count_all w) as [total|e] eqn:Ht; [|destruct e; discriminate H].
  simpl in H.
  destruct (page_count total _) as [pages|] eqn:Hpc; [|discriminate H].
  simpl in H.
  destruct (select_page w _ _) as [fetched|e] eqn:Hs; [|destruct e; discriminate H].
  simpl in H.
  destruct (close w) as [[]|e] eqn:Hcl; [|destruct e; discriminate H]. simpl in H.
  injection H as <-. simpl.
  exists page, limit, fetched. repeat split; try reflexivity; assumption.
Qed.

(** X16. A successful answer of [get-all-deals] carries a page of at least
    1 and a limit of at least 1: a page below 1 is taken as 1 and a limit
    below 1 as 10, other values are kept. The rows are those that the store
    gave for this limit and the offset [(page - 1) * limit], which is never
    negative, and the total is the count of the store. *)
Theorem deals_pagination_normalised
    (w : listings_world) (req : deals_request) (d : deals_data) :
  get_all_deals_main w req = {| code := 200; payload := inr d |} →
  let p := dd_pagination d in
  1 ≤ pg_page p ∧ 1 ≤ pg_limit p
  ∧ 0 ≤ (pg_page p - 1) * pg_limit p
  ∧ (∃ page limit,
       param_int (page_param req) 1 = Done page
       ∧ param_int (limit_param req) 10 = Done limit
       ∧ pg_page p = Z.max 1 page
       ∧ pg_limit p = (if limit <? 1 then 10 else limit))
  ∧ count_all w = Done (pg_total p)
  ∧ ∃ fetched,
      select_page w (pg_limit p) ((pg_page p - 1) * pg_limit p) = Done fetched
      ∧ dd_data d = rows_to_dicts fetched.
Proof.
  intros H p. subst p. apply get_all_deals_ok in H.
  destruct H as (_ & page & limit & fetched & Hp & Hl & _ & Ht & Hpage & Hlimit
                 & _ & Hs & _ & Hd).
  assert (H1 : 1 ≤ pg_page (dd_pagination d))
    by (rewrite Hpage; destruct (Z.ltb_spec page 1); lia).
  assert (H2 : 1 ≤ pg_limit (dd_pagination d))
    by (rewrite Hlimit; destruct (Z.ltb_spec limit 1); lia).
  split; [exact H1|]. split; [exact H2|]. split; [nia|].
  split; [|split; [exact Ht|exists fetched; split; assumption]].
  exists page, limit. split; [exact Hp|]. split; [exact Hl|].
  split; [|exact Hlimit].
  rewrite Hpage. destruct (Z.ltb_spec page 1); lia.
Qed.

Lemma lookup_row_dict (colnames : list string) (row : list pyval)
    (j : nat) (c : string) (v : pyval) :
  NoDup colnames →
  colnames !! j = Some c → row !! j = Some v →
  row_dict colnames row !! c = Some v.
Proof.
  unfold row_dict. intros Hnd Hc Hv.
  assert (Hgen : ∀ (m : gmap string pyval) (kvs : list (string * pyval)),
            NoDup kvs.*1 → (c, v) ∈ kvs →
            foldl (λ d kv, <[kv.1 := kv.2]> d) m kvs !! c = Some v).
  { clear. intros m kvs. revert m.
    induction kvs as [|[k x] kvs IH]; intros m Hnd Hin.
    - apply elem_of_nil in Hin. destruct Hin.
    - simpl. apply NoDup_cons in Hnd. destruct Hnd as [Hk Hnd].
      apply elem_of_cons in Hin. destruct Hin as [[= <- <-]|Hin].
      + clear IH. revert m. induction kvs as [|[k' x'] kvs IH]; intros m; simpl.
        * apply lookup_insert_eq.
        * simpl in Hk, Hnd. apply NoDup_cons in Hnd. destruct Hnd as [_ Hnd].
          rewrite not_elem_of_cons in Hk. destruct Hk as [Hne Hk].
          rewrite insert_insert_ne by congruence. apply IH; assumption.
      + apply IH; assumption. }
  apply Hgen.
  - assert (Hsub : (zip colnames row).*1 = take (length row) colnames).
    { clear. revert row. induction colnames as [|c cs IH]; intros [|x row];
        simpl; try reflexivity.
      f_equal. apply IH. }
    rewrite Hsub. apply (sublist_NoDup _ colnames); [exact Hnd|apply sublist_take].
  - apply list_elem_of_lookup. exists j.
    apply lookup_zip_with_Some. exists c, v. auto.
Qed.

(** X18. The rows come back as dictionaries keyed by column name: when the
    cursor describes distinct columns, the answer has one dictionary per
    row, in the order of the rows, and the dictionary of a row gives, under
    the name of a column, the value that the row has in that column. *)
Theorem rows_to_dicts_round_trip
    (rows : list (list pyval)) (colnames : list string)
    (i j : nat) (row : list pyval) (c : string) (v : pyval) :
  colnames ≠ [] → NoDup colnames →
  rows !! i = Some row →
  colnames !! j = Some c → row !! j = Some v →
  length (rows_to_dicts (rows, Some colnames)) = length rows
  ∧ ∃ d, rows_to_dicts (rows, Some colnames) !! i = Some d ∧ d !! c = Some v.
Proof.
  intros Hne Hnd Hi Hc Hv.
  assert (Hr : rows_to_dicts (rows, Some colnames) = map (row_dict colnames) rows).
  { unfold rows_to_dicts. destruct rows; [reflexivity|].
    destruct colnames; [congruence|reflexivity]. }
  rewrite Hr. split; [apply length_map|].
  exists (row_dict colnames row). split.
  - change (map (row_dict colnames) rows) with (row_dict colnames <$> rows).
    rewrite list_lookup_fmap, Hi. reflexivity.
  - exact (lookup_row_dict colnames row j c v Hnd Hc Hv).
Qed.

(** X19. The failures of [get-all-deals]. The answer is 200 or 500. An
    incomplete configuration is reported as such before the parameters are
    read and before the store is contacted; a parameter that is no integer
    gives the answer for unexpected errors, and so does a count too large
    for the float division of [total_pages]; a failure of the store with a
    [psycopg2.Error] at the connection, the count, the page query or the
    closing gives the answer for database errors: a failure of the closing
    discards the rows already read. *)
Theorem deals_failures (w : listings_world) (req : deals_request) :
  (code (get_all_deals_main w req) = 200 ∨ code (get_all_deals_main w req) = 500)
  ∧ (fully_configured w = false →
     get_all_deals_main w req
     = {| code := 500; payload := inl configuration_incomplete |})
  ∧ (fully_configured w = true →
     param_int (page_param req) 1 = Failed OtherError
     ∨ param_int (limit_param req) 10 = Failed OtherError →
     get_all_deals_main w req
     = {| code := 500; payload := inl unexpected_error |})
  ∧ (∀ page limit,
       fully_configured w = true →
       param_int (page_param req) 1 = Done page →
       param_int (limit_param req) 10 = Done limit →
       let limit' := if limit <? 1 then 10 else limit in
       let offset := ((if page <? 1 then 1 else page) - 1) * limit' in
       (connect w = Failed PsycopgError
        ∨ (connect w = Done tt ∧ count_all w = Failed PsycopgError)
        ∨ (connect w = Done tt
           ∧ (∃ total pages, count_all w = Done total
                             ∧ page_count total limit' = Ok pages)
           ∧ select_page w limit' offset = Failed PsycopgError)
        ∨ (connect w = Done tt
           ∧ (∃ total pages, count_all w = Done total
                             ∧ page_count total limit' = Ok pages)
           ∧ (∃ fetched, select_page w limit' offset = Done fetched)
           ∧ close w = Failed PsycopgError) →
        get_all_deals_main w req
        = {| code := 500; payload := inl database_error |})
       ∧ (connect w = Done tt
          ∧ (∃ total, count_all w = Done total
                      ∧ page_count total limit' = Raise) →
          get_all_deals_main w req
          = {| code := 500; payload := inl unexpected_error |})).
Proof.
  unfold get_all_deals_main, get_all_deals_try.
  split; [|split; [|split]].
  - destruct (fully_configured w); simpl; [|right; reflexivity].
    destruct (param_int (page_param req) 1) as [page|[]]; simpl;
      try (right; reflexivity).
    destruct (param_int (limit_param req) 10) as [limit|[]]; simpl;
      try (right; reflexivity).
    destruct (connect w) as [[]|[]]; simpl; try (right; reflexivity).
    destruct (count_all w) as [total|[]]; simpl; try (right; reflexivity).
    destruct (page_count total _) as [pages|]; simpl; try (right; reflexivity).
    destruct (select_page w _ _) as [fetched|[]]; simpl; try (right; reflexivity).
    destruct (close w) as [[]|[]]; simpl; [left|right|right]; reflexivity.
  - intros ->. reflexivity.
  - intros -> [Hp|Hl]; simpl.
    + rewrite Hp. reflexivity.
    + destruct (param_int (page_param req) 1) as [page|[]] eqn:Hp; simpl.
      * rewrite Hl. reflexivity.
      * unfold param_int in Hp. destruct (page_param req) as [s|];
          [destruct (int_of_string s)|]; discriminate Hp.
      * reflexivity.
  - intros page limit -> -> ->. simpl. split.
    + intros [Hc|[[Hc Ht]|[(Hc & (total & pages & Ht & Hpc) & Hs)
                          |(Hc & (total & pages & Ht & Hpc) & [fetched Hs] & Hcl)]]];
        rewrite Hc; simpl; try reflexivity; rewrite Ht; simpl; try reflexivity;
        rewrite Hpc; simpl; rewrite Hs; simpl; try reflexivity.
      rewrite Hcl. reflexivity.
    + intros (Hc & total & Ht & Hpc). rewrite Hc. simpl. rewrite Ht. simpl.
      rewrite Hpc. reflexivity.
Qed.

(** X20. [get-listings] answers 200 exactly when the configuration is
    complete and the connection, the query and the closing all succeed; the
    answer then holds the rows of the query as dictionaries. Otherwise it
    answers 500; in particular a closing that fails discards the rows. *)
Theorem listings_answer (w : listings_world) :
  (∀ l, get_listings_main w = {| code := 200; payload := inr l |} ↔
        fully_configured w = true ∧ connect w = Done tt
        ∧ ∃ fetched, select_listed w = Done fetched ∧ close w = Done tt
                     ∧ l = rows_to_dicts fetched)
  ∧ (code (get_listings_main w) = 200 ∨ code (get_listings_main w) = 500)
  ∧ (fully_configured w = false →
     get_listings_main w = {| code := 500; payload := inl configuration_incomplete |})
  ∧ (∀ fetched e,
       fully_configured w = true → connect w = Done tt →
       select_listed w = Done fetched → close w = Failed e →
       code (get_listings_main w) = 500).
Proof.
  unfold get_listings_main, get_listings_try.
  split; [|split; [|split]].
  - intros l. split.
    + intros H. destruct (fully_configured w); [|discriminate H]. simpl in H.
      destruct (connect w) as [[]|[]]; try discriminate H. simpl in H.
      destruct (select_listed w) as [fetched|[]]; try discriminate H. simpl in H.
      destruct (close w) as [[]|[]]; try discriminate H. simpl in H.
      injection H as <-. split; [reflexivity|]. split; [reflexivity|].
      exists fetched. auto.
    + intros (-> & -> & fetched & -> & -> & ->). reflexivity.
  - destruct (fully_configured w); simpl; [|right; reflexivity].
    destruct (connect w) as [[]|[]]; simpl; try (right; reflexivity).
    destruct (select_listed w) as [fetched|[]]; simpl; try (right; reflexivity).
    destruct (close w) as [[]|[]]; simpl; [left|right|right]; reflexivity.
  - intros ->. reflexivity.
  - intros fetched e -> -> -> ->. destruct e; reflexivity.
Qed.

(** ** The headers and the attributes *)

(** X21. [HEADERS] carries the bearer token exactly when the token is set,
    and the cookie exactly when the cookie is set; and the resolver returns
    a record only when both are among the headers. *)
Theorem record_needs_credentials_in_headers :
  (assoc_get "authorization" HEADERS = None ↔ env_unset AUTH_TOKEN = true)
  ∧ (assoc_get "Cookie" HEADERS = None ↔ env_unset COOKIE = true)
  ∧ ∀ post now cert_id grade company r,
      get_alt_data_async post now cert_id grade company = Ok (Some r) →
      ∃ token cookie,
        AUTH_TOKEN = Some token ∧ COOKIE = Some cookie
        ∧ assoc_get "authorization" HEADERS = Some ("Bearer " ++ token)%string
        ∧ assoc_get "Cookie" HEADERS = Some cookie.
Proof.
  assert (Ha : ∀ token, AUTH_TOKEN = Some token → env_unset AUTH_TOKEN = false →
               assoc_get "authorization" HEADERS = Some ("Bearer " ++ token)%string).
  { intros token E Hu. unfold HEADERS. rewrite Hu, E. simpl.
    destruct (env_unset COOKIE); reflexivity. }
  assert (Hc : ∀ cookie, COOKIE = Some cookie → env_unset COOKIE = false →
               assoc_get "Cookie" HEADERS = Some cookie).
  { intros cookie E Hu. unfold HEADERS. rewrite Hu, E. simpl.
    destruct (env_unset AUTH_TOKEN); reflexivity. }
  split; [|split].
  - destruct (env_unset AUTH_TOKEN) eqn:Hu.
    + split; [reflexivity|]. intros _. unfold HEADERS. rewrite Hu.
      destruct (env_unset COOKIE); reflexivity.
    + destruct AUTH_TOKEN as [token|] eqn:E; [|discriminate Hu].
      rewrite (Ha token eq_refl eq_refl). split; discriminate.
  - destruct (env_unset COOKIE) eqn:Hu.
    + split; [reflexivity|]. intros _. unfold HEADERS. rewrite Hu.
      destruct (env_unset AUTH_TOKEN); reflexivity.
    + destruct COOKIE as [cookie|] eqn:E; [|discriminate Hu].
      rewrite (Hc cookie eq_refl eq_refl). split; discriminate.
  - intros post now cert_id grade company r H.
    apply get_alt_data_async_Some in H. destruct H as (Hua & Huc & _).
    destruct AUTH_TOKEN as [token|] eqn:Et; [|discriminate Hua].
    destruct COOKIE as [cookie|] eqn:Ec; [|discriminate Huc].
    exists token, cookie. auto.
Qed.

(** X22. [get_attr] gives the value of the first attribute of the trait:
    the attributes before it that are of other traits and those after it,
    of the same trait or not, change nothing; with no attribute of the
    trait it gives [None]. *)
Theorem get_attr_first_match
    (before after : list attribute) (a : attribute) (trait : string) :
  Forall (λ b, py_eq (trait_type b) (PStr trait) = false) before →
  (trait_type a = PStr trait →
   get_attr (before ++ a :: after) trait = value a)
  ∧ get_attr before trait = PNone.
Proof.
  intros Hb. induction Hb as [|b before Hne _ [IH1 IH2]].
  - split; [|reflexivity]. intros E. simpl. rewrite E. simpl.
    rewrite String.eqb_refl. reflexivity.
  - simpl. rewrite Hne. split; assumption.
Qed.

(** ** The view of a cached token *)

(** X23. The view of a token that the store knows is made from the last row
    returned for its mint: name, grade, grade number and image are those of
    the row where the row has a truthy one and those of the inventory
    otherwise, the supply is the one of the row, and the range reads
    "lower - upper" when the row has both bounds and is unavailable when
    one of them is null. *)
Theorem cached_token_view_from_row
    (w : world) (req : request) (a : string) (tokens : list token)
    (i : nat) (t : token) (k : string) (rows : list db_row) (row : db_row) :
  wallet req = Some a → a ≠ "" →
  inventory w a (limit req) (offset req) = Ok tokens →
  tokens !! i = Some t →
  mintAddress t = Some k →
  token_mints_of tokens ≠ [] →
  store_configured w = true →
  listings w (token_mints_of tokens) = Ok rows →
  last (filter (λ row, row_token_mint row = k) rows) = Some row →
  ∃ r o, main w req = {| status := 200; content := Json r |}
         ∧ r_tokens r !! i = Some o
         ∧ out_name o = py_or (row_name row) (name t)
         ∧ out_grade o = py_or (row_grade row) (get_attr (attributes t) "The Grade")
         ∧ out_grading_number o
           = py_or (row_grade_num row) (get_attr (attributes t) "GradeNum")
         ∧ out_img o = py_or (row_img_url row) (image t)
         ∧ out_supply o = row_supply row
         ∧ (row_alt_value_lower_bound row = PNone
            ∨ row_alt_value_upper_bound row = PNone →
            out_alt_range o = PStr "N/A")
         ∧ (row_alt_value_lower_bound row ≠ PNone →
            row_alt_value_upper_bound row ≠ PNone →
            out_alt_range o
            = PStr (py_str (row_alt_value_lower_bound row) ++ " - "
                    ++ py_str (row_alt_value_upper_bound row))%string).
Proof.
  intros Hw Ha Hinv Hi Hk Hm Hc Hl Hlast.
  assert (Hcache : cache_lookup w (token_mints_of tokens) !! mintAddress t
                   = Some (of_row row)).
  { rewrite Hk. unfold cache_lookup. rewrite Hc, Hl.
    destruct (token_mints_of tokens) as [|mint mints]; [congruence|]. simpl.
    rewrite lookup_rows.
    replace (filter (λ row, Some (row_token_mint row) = Some k) rows)
      with (filter (λ row, row_token_mint row = k) rows).
    - rewrite Hlast. reflexivity.
    - apply list_filter_iff. intros row'. split; [intros ->; reflexivity|].
      intros [= E]. exact E. }
  eexists. exists (format_with (of_row row) t).
  split; [apply (main_spec w req a tokens Hw Ha Hinv)|]. simpl.
  rewrite (lookup_views _ _ _ _ Hi), (final_map_cached _ _ _ _ _ Hcache).
  split; [reflexivity|]. simpl.
  split; [reflexivity|]. split; [reflexivity|]. split; [reflexivity|].
  split; [reflexivity|]. split; [reflexivity|]. split.
  - intros [E|E]; rewrite E; [reflexivity|].
    destruct (row_alt_value_lower_bound row); reflexivity.
  - intros Hlo Hhi.
    destruct (row_alt_value_lower_bound row) eqn:Elo; [congruence|..];
      (destruct (row_alt_value_upper_bound row) eqn:Ehi; [congruence|..];
       unfold py_or; simpl; rewrite range_text_not_empty; reflexivity).
Qed.

End Runtime.

(** ** Closed scenarios *)

Local Open Scope list_scope.



(** Supply 4000 and sales of 10 and 12 on one day and 20 on the next, all
    in the window: daily means 11 and 20, price 15.5; the sale of 1000 of
    six weeks before does not count. *)
Lemma liquid_scenario :
  aggregate_price demo_float_of_string demo_float_sum demo_fromisoformat
    (PList four_sales) (PInt 4000) demo_now = Ok 15.5%float.
Proof.
  destruct (liquid_price_is_mean_of_daily_means
              demo_float_of_string demo_float_sum demo_fromisoformat
              four_sales 4000 demo_now four_sales_dated)
    as (Havg & _ & _).
  - lia.
  - repeat constructor.
  - rewrite Havg. vm_compute. reflexivity.
Defined.

(** A sale of fourteen and a half days ago is within the last fifteen days
    and is left out, its day having begun more than fifteen days ago: the
    price is [0.0], not the 10 of the sale. And a sale dated four days
    after now is counted. *)
Lemma recent_sale_left_out :
  at_time 2024 3 16 6 0 - 15 * us_per_day ≤ at_time 2024 3 1 18 0
                                            ≤ at_time 2024 3 16 6 0
  ∧ aggregate_price demo_float_of_string demo_float_sum demo_fromisoformat
      (PList [tx "2024-03-01T18:00:00Z" 10]) (PInt 4000)
      (at_time 2024 3 16 6 0) = Ok 0%float
  ∧ at_time 2024 3 16 6 0 < at_time 2024 3 20 9 0
  ∧ aggregate_price demo_float_of_string demo_float_sum demo_fromisoformat
      (PList [tx "2024-03-20T09:00:00Z" 500]) (PInt 4000)
      (at_time 2024 3 16 6 0) = Ok 500%float.
Proof.
  split; [vm_compute; split; discriminate|].
  split; [vm_compute; reflexivity|].
  split; [vm_compute; reflexivity|vm_compute; reflexivity].
Qed.


(** With the valuation service down, the resolver returns nothing. *)
Lemma resolver_scenario :
  get_alt_data_async demo_float_of_string demo_float_sum demo_repr demo_fromisoformat
    (Some "token") (Some "cookie") failing_post demo_now
    (PStr "11111111") (PStr "9") (PStr "PSA") = Ok None.
Proof.
  apply resolver_failure_gives_nothing.
  apply (identity_bad_status _ _ _ _ _ _ _ _ _
           {| status_code := 503; json := Raise |}).
  - reflexivity.
  - discriminate.
Defined.



(** The wallet of the specification: a token in the cache with valuation
    100 and supply 50, and a token without cache entry and without grading
    attributes. Both are in the answer, in this order, the second with its
    valuation unavailable. *)
Lemma two_token_scenario :
  ∃ r o, main demo_float_of_string demo_float_sum demo_repr demo_fromisoformat
           (Some "token") (Some "token")
           (demo_world (Some "db.example") [token_a; token_b]
              (Ok [row_a (PInt 100)]) demo_post)
           demo_request
         = {| status := 200; content := Json r |}
         ∧ length (r_tokens r) = 2%nat
         ∧ r_tokens r !! 1%nat = Some o
         ∧ out_mint o = Some "mintB"
         ∧ o = format_with demo_repr cartel_empty token_b
         ∧ unavailable o.
Proof.
  apply (token_without_attributes_is_kept
           demo_float_of_string demo_float_sum demo_repr demo_fromisoformat
           (Some "token") (Some "token")
           (demo_world (Some "db.example") [token_a; token_b]
              (Ok [row_a (PInt 100)]) demo_post)
           demo_request demo_wallet [token_a; token_b] 1%nat token_b).
  - reflexivity.
  - discriminate.
  - reflexivity.
  - reflexivity.
  - vm_compute. reflexivity.
  - reflexivity.
  - intros t' Hin E. rewrite !elem_of_cons, elem_of_nil in Hin.
    destruct Hin as [->|[->|[]]]; [discriminate E|reflexivity].
Defined.

(** Two tokens without identifier, the first with its grading attributes,
    the second without any and absent from the cache: the record fetched for
    the first is filed under the key [None], which the second shares, so
    the view of the second shows the supply 250 and the valuation 110
    instead of the unavailable marker. *)
Lemma shared_identifier_shows_fetched_record :
  cache_lookup demo_repr
    (demo_world None [token_e; token_f] Raise demo_post)
    (token_mints_of [token_e; token_f]) !! mintAddress token_f = None
  ∧ has_grading_attributes token_f = false
  ∧ ∃ r o,
      main demo_float_of_string demo_float_sum demo_repr demo_fromisoformat
        (Some "token") (Some "token")
        (demo_world None [token_e; token_f] Raise demo_post) demo_request
      = {| status := 200; content := Json r |}
      ∧ r_tokens r !! 1%nat = Some o
      ∧ out_name o = PStr "Eevee #133"
      ∧ out_supply o = PInt 250
      ∧ out_alt_value o = PFloat 110
      ∧ ¬ unavailable o.
Proof.
  split; [vm_compute; reflexivity|]. split; [reflexivity|].
  eexists. eexists. split; [vm_compute; reflexivity|].
  split; [reflexivity|]. split; [reflexivity|]. split; [reflexivity|].
  split; [reflexivity|].
  intros [H _]. discriminate H.
Qed.

(** The three views come in the order of the page, with the pagination
    echoed, whatever the order of completion. *)
Lemma page_order_scenario :
  ∃ r, main demo_float_of_string demo_float_sum demo_repr demo_fromisoformat
           (Some "token") (Some "token") cached_world demo_request
       = {| status := 200; content := Json r |}
       ∧ map out_mint (r_tokens r) = [Some "mintA"; Some "mintB"; Some "mintC"]
       ∧ r_count r = 3 ∧ r_offset r = 0 ∧ r_limit r = 20
       ∧ main demo_float_of_string demo_float_sum demo_repr demo_fromisoformat
           (Some "token") (Some "token") (with_completion (λ i, i) cached_world) demo_request
         = main demo_float_of_string demo_float_sum demo_repr demo_fromisoformat
           (Some "token") (Some "token") cached_world demo_request.
Proof.
  destruct (page_order_and_pagination
              demo_float_of_string demo_float_sum demo_repr demo_fromisoformat
              (Some "token") (Some "token") cached_world demo_request
              demo_wallet demo_page)
    as (r & Hmain & Hmints & _ & Hcount & Hoff & Hlim & Hrank).
  - reflexivity.
  - discriminate.
  - reflexivity.
  - exists r. split; [exact Hmain|]. split; [exact Hmints|].
    split; [|split; [exact Hoff|split; [exact Hlim|apply Hrank]]].
    rewrite Hcount. rewrite <- (length_map out_mint), Hmints. reflexivity.
Defined.

(** Without the host of the store, or with a store that cannot be reached,
    the cache is empty and the request succeeds. *)
Lemma cache_failure_scenario :
  cache_lookup demo_repr
    (demo_world None demo_page (Ok [row_a (PInt 100)]) demo_post)
    ["mintA"; "mintB"; "mintC"] = ∅
  ∧ cache_lookup demo_repr
      (demo_world (Some "db.example") demo_page Raise demo_post)
      ["mintA"; "mintB"; "mintC"] = ∅
  ∧ status (main demo_float_of_string demo_float_sum demo_repr demo_fromisoformat
           (Some "token") (Some "token")
              (demo_world (Some "db.example") demo_page Raise demo_post)
              demo_request) = 200.
Proof.
  destruct (cache_failure_degrades_to_empty
              demo_float_of_string demo_float_sum demo_repr demo_fromisoformat
              (Some "token") (Some "token")
              (demo_world None demo_page (Ok [row_a (PInt 100)]) demo_post))
    as (_ & Hconf & _).
  destruct (cache_failure_degrades_to_empty
              demo_float_of_string demo_float_sum demo_repr demo_fromisoformat
              (Some "token") (Some "token")
              (demo_world (Some "db.example") demo_page Raise demo_post))
    as (_ & _ & Hdown & _ & Hmain).
  split; [|split].
  - apply Hconf. reflexivity.
  - apply Hdown. reflexivity.
  - apply (Hmain demo_request demo_wallet demo_page).
    + reflexivity.
    + discriminate.
    + reflexivity.
Defined.



(** Without credentials the resolver returns nothing, and the token that the
    cache does not know is shown unavailable although the valuation service
    would answer. *)
Lemma no_credentials_scenario :
  get_alt_data_async demo_float_of_string demo_float_sum demo_repr demo_fromisoformat
    None (Some "cookie") demo_post demo_now
    (PStr "22222222") (PStr "9") (PStr "PSA") = Ok None
  ∧ ∃ r o, main demo_float_of_string demo_float_sum demo_repr demo_fromisoformat
             None (Some "cookie") cached_world demo_request
           = {| status := 200; content := Json r |}
           ∧ r_tokens r !! 2%nat = Some o
           ∧ o = format_with demo_repr cartel_empty token_c
           ∧ unavailable o.
Proof.
  destruct (no_credentials_no_valuation
              demo_float_of_string demo_float_sum demo_repr demo_fromisoformat
              None (Some "cookie"))
    as (Hresolver & Hmain).
  - left. reflexivity.
  - split; [apply Hresolver|].
    apply (Hmain cached_world demo_request demo_wallet demo_page 2%nat token_c).
    + reflexivity.
    + discriminate.
    + reflexivity.
    + reflexivity.
    + vm_compute. reflexivity.
Defined.

(** ** Closed scenarios of the further properties *)

(** The valuation service knows the certificate of [token_c]. *)
Lemma identity_lookup_scenario :
  get_asset_id_async demo_post (PStr "22222222") = Ok (PStr "asset-1").
Proof.
  edestruct (identity_lookup_returns_id
               demo_float_of_string demo_float_sum demo_repr demo_fromisoformat
               (Some "token") (Some "cookie") demo_post demo_now
               (PStr "22222222") (PStr "9") (PStr "PSA")) as [H _].
  - reflexivity.
  - reflexivity.
  - reflexivity.
  - reflexivity.
  - exact H.
Defined.

(** The record of [token_c] comes from the answers of the service: supply
    250 from its entries, the price from its two sales. *)
Lemma resolution_provenance_scenario :
  ∃ pops transactions avg,
    scan_pops demo_float_of_string demo_repr pops (PStr "9") (PStr "PSA")
    = Ok (PInt 250)
    ∧ aggregate_price demo_float_of_string demo_float_sum demo_fromisoformat
        transactions (PInt 250) demo_now = Ok avg
    ∧ res_avg_price demo_record = PFloat avg.
Proof.
  destruct (resolution_provenance
              demo_float_of_string demo_float_sum demo_repr demo_fromisoformat
              (Some "token") (Some "cookie") demo_post demo_now
              (PStr "22222222") (PStr "9") (PStr "PSA") demo_record)
    as (_ & _ & _ & g & dr & tr & dj & tj & pops & txs & avg & _ & _ & _
        & _ & _ & _ & _ & _ & _ & Hscan & Havg & Hprice).
  - vm_compute. reflexivity.
  - exists pops, txs, avg. split; [exact Hscan|]. split; [exact Havg|exact Hprice].
Defined.

(** The record of [token_c]: an asset identifier, a supply of 250, a price,
    and a confidence that the service left out, given as 0.0. *)
Lemma resolver_record_scenario :
  truthy (res_alt_asset_id demo_record) = true
  ∧ (∃ s : number, num_of (res_supply demo_record) = Some s)
  ∧ (∃ avg : float, res_avg_price demo_record = PFloat avg)
  ∧ Forall (λ x : pyval, truthy x = true ∨ x = PFloat 0)
      [res_alt_value demo_record; res_lower_bound demo_record;
       res_upper_bound demo_record; res_confidence demo_record].
Proof.
  apply (resolver_record_well_formed
           demo_float_of_string demo_float_sum demo_repr demo_fromisoformat
           (Some "token") (Some "cookie") demo_post demo_now
           (PStr "22222222") (PStr "9") (PStr "PSA") demo_record).
  vm_compute. reflexivity.
Defined.

(** With the marketplace down the answer is 500; with the page of three
    tokens it is 200, although the valuation service is down. *)
Lemma main_status_scenario :
  status (main demo_float_of_string demo_float_sum demo_repr demo_fromisoformat
            (Some "token") (Some "cookie") offline_world demo_request) = 500
  ∧ status (main demo_float_of_string demo_float_sum demo_repr demo_fromisoformat
              (Some "token") (Some "cookie")
              (demo_world (Some "db.example") demo_page Raise failing_post)
              demo_request) = 200.
Proof.
  split.
  - destruct (main_status demo_float_of_string demo_float_sum demo_repr
                demo_fromisoformat (Some "token") (Some "cookie")
                offline_world demo_request) as (_ & H & _).
    apply (H demo_wallet); [reflexivity|discriminate|reflexivity].
  - destruct (main_status demo_float_of_string demo_float_sum demo_repr
                demo_fromisoformat (Some "token") (Some "cookie")
                (demo_world (Some "db.example") demo_page Raise failing_post)
                demo_request) as (_ & _ & H).
    apply (H demo_wallet demo_page); [reflexivity|discriminate|reflexivity].
Defined.

(** A wallet without tokens, with the store and the service down. *)
Lemma empty_page_scenario :
  main demo_float_of_string demo_float_sum demo_repr demo_fromisoformat
    (Some "token") (Some "cookie")
    (demo_world (Some "db.example") [] Raise failing_post) demo_request
  = {| status := 200;
       content := Json {| r_wallet := demo_wallet; r_tokens := [];
                          r_count := 0; r_offset := 0; r_limit := 20 |} |}.
Proof.
  apply (empty_page_answer
           demo_float_of_string demo_float_sum demo_repr demo_fromisoformat
           (Some "token") (Some "cookie")
           (demo_world (Some "db.example") [] Raise failing_post) demo_request
           demo_wallet).
  - reflexivity.
  - discriminate.
  - reflexivity.
Defined.

(** Two rows of the store for the mint of [token_a]: the second one is the
    cache entry. *)
Lemma cache_last_row_scenario :
  cache_lookup demo_repr
    (demo_world (Some "db.example") demo_page
       (Ok [row_a (PInt 100); row_a (PInt 0)]) demo_post)
    ["mintA"] !! Some "mintA"
  = Some (of_row demo_repr (row_a (PInt 0))).
Proof.
  destruct (cache_lookup_last_row_wins demo_repr
              (demo_world (Some "db.example") demo_page
                 (Ok [row_a (PInt 100); row_a (PInt 0)]) demo_post)
              ["mintA"] [row_a (PInt 100); row_a (PInt 0)] "mintA") as [H _].
  - discriminate.
  - reflexivity.
  - reflexivity.
  - exact H.
Defined.

(** [token_c] is not in the cache: its view shows the name and the grade of
    the inventory. *)
Lemma uncached_display_scenario :
  ∃ r o, main demo_float_of_string demo_float_sum demo_repr demo_fromisoformat
           (Some "token") (Some "cookie") cached_world demo_request
         = {| status := 200; content := Json r |}
         ∧ r_tokens r !! 2%nat = Some o
         ∧ out_name o = PStr "Mewtwo #150"
         ∧ out_grade o = PStr "9".
Proof.
  destruct (uncached_token_keeps_inventory_display
              demo_float_of_string demo_float_sum demo_repr demo_fromisoformat
              (Some "token") (Some "cookie") cached_world demo_request
              demo_wallet demo_page 2%nat token_c)
    as (r & o & Hmain & Ho & _ & Hname & _ & Hgrade & _).
  - reflexivity.
  - discriminate.
  - reflexivity.
  - reflexivity.
  - vm_compute. reflexivity.
  - exists r, o. split; [exact Hmain|]. split; [exact Ho|].
    split; [exact Hname|exact Hgrade].
Defined.

(** [token_b] is not in the cache: its view is the unavailable one, or shows
    the supply of a fetched record. *)
Lemma uncached_valuation_scenario :
  ∃ r o, main demo_float_of_string demo_float_sum demo_repr demo_fromisoformat
           (Some "token") (Some "cookie") cached_world demo_request
         = {| status := 200; content := Json r |}
         ∧ r_tokens r !! 1%nat = Some o
         ∧ (unavailable o ∨ ∃ res, out_supply o = res_supply res).
Proof.
  destruct (uncached_token_valuation_source
              demo_float_of_string demo_float_sum demo_repr demo_fromisoformat
              (Some "token") (Some "cookie") cached_world demo_request
              demo_wallet demo_page 1%nat token_b)
    as (r & o & Hmain & Ho & Hsrc).
  - reflexivity.
  - discriminate.
  - reflexivity.
  - reflexivity.
  - vm_compute. reflexivity.
  - exists r, o. split; [exact Hmain|]. split; [exact Ho|].
    destruct Hsrc as [[_ Hu]|(j & t' & res & _ & _ & _ & _ & Hs & _)].
    + left. exact Hu.
    + right. exists res. exact Hs.
Defined.

(** Two entries of the page under one mint, the first without grading
    attributes: both views show the same valuation. *)
Lemma same_mint_scenario :
  ∃ r oi oj, main demo_float_of_string demo_float_sum demo_repr demo_fromisoformat
               (Some "token") (Some "cookie")
               (demo_world None [token_d; token_c] Raise demo_post) demo_request
             = {| status := 200; content := Json r |}
             ∧ r_tokens r !! 0%nat = Some oi
             ∧ r_tokens r !! 1%nat = Some oj
             ∧ out_alt_value oi = out_alt_value oj
             ∧ out_alt_link oi = out_alt_link oj.
Proof.
  destruct (same_mint_same_valuation
              demo_float_of_string demo_float_sum demo_repr demo_fromisoformat
              (Some "token") (Some "cookie")
              (demo_world None [token_d; token_c] Raise demo_post) demo_request
              demo_wallet [token_d; token_c] 0%nat 1%nat token_d token_c)
    as (r & oi & oj & Hmain & Hi & Hj & _ & Hvalue & _ & _ & Hlink).
  - reflexivity.
  - discriminate.
  - reflexivity.
  - reflexivity.
  - reflexivity.
  - reflexivity.
  - exists r, oi, oj. split; [exact Hmain|]. split; [exact Hi|].
    split; [exact Hj|]. split; [exact Hvalue|exact Hlink].
Defined.

(** Supply 500 and five sales: the fifth sale and the clock play no part. *)
Lemma first_four_scenario :
  aggregate_price demo_float_of_string demo_float_sum demo_fromisoformat
    (PList five_sales) (PInt 500) demo_now
  = aggregate_price demo_float_of_string demo_float_sum demo_fromisoformat
      (PList (take 4 five_sales)) (PInt 500) 0.
Proof.
  apply (low_supply_reads_only_first_four
           demo_float_of_string demo_float_sum demo_fromisoformat five_sales 500 demo_now 0).
  lia.
Defined.

(** Supply 4000 and a sale whose date is no date. *)
Lemma unreadable_date_scenario :
  aggregate_price demo_float_of_string demo_float_sum demo_fromisoformat
    (PList [tx "2024-03-10T10:00:00Z" 10;
            PDict [("date", PStr "yesterday"); ("price", PFloat 5)]])
    (PInt 4000) demo_now
  = Raise.
Proof.
  apply (liquid_unreadable_date_raises
           demo_float_of_string demo_float_sum demo_fromisoformat _ 4000 demo_now
           (PDict [("date", PStr "yesterday"); ("price", PFloat 5)])).
  - lia.
  - repeat constructor.
  - reflexivity.
Defined.

(** Supply 4000, a sale in the window and an older one without price. *)
Lemma outside_window_scenario :
  aggregate_price demo_float_of_string demo_float_sum demo_fromisoformat
    (PList [tx "2024-03-10T10:00:00Z" 10;
            PDict [("date", PStr "2024-02-01T09:00:00Z")]])
    (PInt 4000) demo_now
  = Ok (liquid_price_spec demo_float_sum demo_now
          [(at_time 2024 3 10 0 0, 10%float)]).
Proof.
  apply (liquid_reads_no_price_outside_window
           demo_float_of_string demo_float_sum demo_fromisoformat
           [tx "2024-03-10T10:00:00Z" 10;
            PDict [("date", PStr "2024-02-01T09:00:00Z")]]
           4000 demo_now
           [(at_time 2024 3 10 0 0, 10%float); (at_time 2024 2 1 0 0, 0%float)]).
  - lia.
  - constructor; [split; [reflexivity|intros _; reflexivity]|].
    constructor; [|constructor].
    split; [reflexivity|].
    intros Hw. vm_compute in Hw. exfalso. apply Hw. reflexivity.
Defined.

(** Grade 9 reads "9.0", grade 9.5 reads "9.5", and the entry for "9.0"
    gives the supply of grade 9. *)
Lemma grade_text_scenario :
  format_grade demo_float_of_string (PInt 9) = Ok "9.0"
  ∧ format_grade demo_float_of_string (PFloat 9.5) = Ok "9.5"
  ∧ scan_pops demo_float_of_string demo_repr
      [PDict [("gradingCompany", PStr "PSA"); ("gradeNumber", PStr "9.0");
              ("count", PInt 250)]]
      (PInt 9) (PStr "PSA")
    = Ok (PInt 250).
Proof.
  apply (grade_text_round_trip demo_float_of_string demo_repr
           9 95 "PSA" (PInt 250) []); lia.
Defined.

(** Page 0 with limit -3 of a store of 25 listings: page 1 with limit 10. *)
Lemma deals_pagination_scenario :
  ∃ d, get_all_deals_main demo_int_of_string
         (demo_store (Some "db.example") (Done tt)) demo_deals_request
       = {| code := 200; payload := inr d |}
       ∧ pg_page (dd_pagination d) = 1
       ∧ 1 ≤ pg_limit (dd_pagination d).
Proof.
  exists {| dd_data := rows_to_dicts (demo_rows, Some demo_columns);
            dd_pagination := {| pg_page := 1; pg_limit := 10;
                                pg_total := 25; pg_total_pages := 3 |} |}.
  assert (H : get_all_deals_main demo_int_of_string
                (demo_store (Some "db.example") (Done tt)) demo_deals_request
              = {| code := 200;
                   payload := inr
                     {| dd_data := rows_to_dicts (demo_rows, Some demo_columns);
                        dd_pagination := {| pg_page := 1; pg_limit := 10;
                                            pg_total := 25;
                                            pg_total_pages := 3 |} |} |})
    by (vm_compute; reflexivity).
  split; [exact H|].
  destruct (deals_pagination_normalised _ _ _ _ H) as (_ & Hl & _).
  split; [reflexivity|exact Hl].
Defined.

(** The second row of the store, read by column name. *)
Lemma rows_to_dicts_scenario :
  ∃ d, rows_to_dicts (demo_rows, Some demo_columns) !! 1%nat = Some d
       ∧ d !! "name" = Some (PStr "Pikachu").
Proof.
  destruct (rows_to_dicts_round_trip demo_rows demo_columns 1%nat 1%nat
              [PStr "mintB"; PStr "Pikachu"; PNone] "name" (PStr "Pikachu"))
    as (_ & d & Hd & Hv).
  - discriminate.
  - apply (bool_decide_unpack _). vm_compute. exact I.
  - reflexivity.
  - reflexivity.
  - reflexivity.
  - exists d. split; [exact Hd|exact Hv].
Defined.

(** Without a host nothing is queried; with a connection that does not
    close, the rows that were read are not returned. *)
Lemma deals_failures_scenario :
  get_all_deals_main demo_int_of_string
    (demo_store None (Done tt)) demo_deals_request
  = {| code := 500; payload := inl configuration_incomplete |}
  ∧ get_all_deals_main demo_int_of_string
      (demo_store (Some "db.example") (Failed PsycopgError)) demo_deals_request
    = {| code := 500; payload := inl database_error |}.
Proof.
  split.
  - destruct (deals_failures demo_int_of_string
                (demo_store None (Done tt)) demo_deals_request)
      as (_ & H & _).
    apply H. reflexivity.
  - destruct (deals_failures demo_int_of_string
                (demo_store (Some "db.example") (Failed PsycopgError))
                demo_deals_request)
      as (_ & _ & _ & H).
    destruct (H 0 (-3) eq_refl eq_refl eq_refl) as [Hdb _].
    apply Hdb. right. right. right.
    split; [reflexivity|].
    split; [exists 25, 3; split; [reflexivity|vm_compute; reflexivity]|].
    split; [eexists; reflexivity|reflexivity].
Defined.

(** The listed rows of the store, as dictionaries. *)
Lemma listings_scenario :
  get_listings_main (demo_store (Some "db.example") (Done tt))
  = {| code := 200;
       payload := inr (rows_to_dicts (demo_rows, Some demo_columns)) |}.
Proof.
  destruct (listings_answer (demo_store (Some "db.example") (Done tt)))
    as (H & _).
  apply H. split; [reflexivity|]. split; [reflexivity|].
  exists (demo_rows, Some demo_columns).
  split; [reflexivity|]. split; reflexivity.
Defined.

(** The record of [token_c] was fetched with both credentials in the
    headers. *)
Lemma credentials_scenario :
  assoc_get "authorization" (HEADERS (Some "token") (Some "cookie"))
  = Some "Bearer token"
  ∧ assoc_get "Cookie" (HEADERS (Some "token") (Some "cookie")) = Some "cookie".
Proof.
  destruct (record_needs_credentials_in_headers
              demo_float_of_string demo_float_sum demo_repr demo_fromisoformat
              (Some "token") (Some "cookie")) as (_ & _ & H).
  destruct (H demo_post demo_now (PStr "22222222") (PStr "9") (PStr "PSA")
              demo_record)
    as (token & cookie & Ht & Hc & Ha & Hk).
  - vm_compute. reflexivity.
  - injection Ht as <-. injection Hc as <-. split; [exact Ha|exact Hk].
Defined.

(** The grade of [token_a] is the value of its first attribute of that
    trait. *)
Lemma get_attr_scenario :
  get_attr (attributes token_a) "The Grade" = PStr "9".
Proof.
  destruct (get_attr_first_match
              [attr "Grading Company" "PSA"]
              [attr "GradeNum" "9"; attr "Grading ID" "11111111"]
              (attr "The Grade" "9") "The Grade") as [H _].
  - repeat constructor.
  - exact (H eq_refl).
Defined.

(** [token_a] is in the store, without image: its view shows the name of
    the row, the image of the inventory and the range of the row. *)
Lemma cached_view_scenario :
  ∃ r o, main demo_float_of_string demo_float_sum demo_repr demo_fromisoformat
           (Some "token") (Some "cookie") cached_world demo_request
         = {| status := 200; content := Json r |}
         ∧ r_tokens r !! 0%nat = Some o
         ∧ out_name o = PStr "Charizard (cache)"
         ∧ out_img o = PStr "https://img.example/a.png"
         ∧ out_alt_range o = PStr "90.0 - 110.0".
Proof.
  destruct (cached_token_view_from_row
              demo_float_of_string demo_float_sum demo_repr demo_fromisoformat
              (Some "token") (Some "cookie") cached_world demo_request
              demo_wallet demo_page 0%nat token_a "mintA"
              [row_a (PInt 100)] (row_a (PInt 100)))
    as (r & o & Hmain & Ho & Hname & _ & _ & Himg & _ & _ & Hrange).
  - reflexivity.
  - discriminate.
  - reflexivity.
  - reflexivity.
  - reflexivity.
  - discriminate.
  - reflexivity.
  - reflexivity.
  - reflexivity.
  - exists r, o. split; [exact Hmain|]. split; [exact Ho|].
    split; [exact Hname|]. split; [exact Himg|].
    apply Hrange; discriminate.
Defined.
